(** * serve.py: a development HTTP server that forbids caching

    The program under study is the script [serve.py]: it changes the working
    directory to the directory of the script, subclasses
    [http.server.SimpleHTTPRequestHandler] so that [end_headers] first sends
    three cache-defeating header fields, prints one line and serves forever on
    port 9091.

    The script is fourteen lines long; everything it does at run time happens
    in the methods it inherits.  The development therefore embeds, next to the
    script, the methods of CPython 3.11's [http/server.py], [socketserver.py]
    and [posixpath.py] that the script reaches, each under the name it has
    there.  Python [str] values of this program are Latin-1 text (the request
    line is decoded as iso-8859-1) and are modelled, like [bytes], as [string];
    file names are kept in their file-system encoding.  A library call that
    can raise an exception the handler does not catch is modelled with the
    exception: the handler then raises, and [socketserver] reports it. *)

From Stdlib Require Import String Ascii List ZArith Bool Lia DecimalString.
Import ListNotations.
Open Scope list_scope.
Open Scope string_scope.

(** ** Python's [str] methods used by the handler *)

Module Str.

(** [s.startswith(p)] *)
Definition startswith (s p : string) : bool := String.prefix p s.

(** [s.endswith(p)]: some suffix of [s] is [p]. *)
Fixpoint endswith (s p : string) : bool :=
  if String.eqb s p then true
  else match s with
       | EmptyString => false
       | String _ s' => endswith s' p
       end.

(** [c in s] for a one-character [c] *)
Fixpoint contains (c : ascii) (s : string) : bool :=
  match s with
  | EmptyString => false
  | String d s' => Ascii.eqb c d || contains c s'
  end.

(** [s.split(sep)] for a one-character separator *)
Fixpoint split (sep : ascii) (s : string) : list string :=
  match s with
  | EmptyString => [EmptyString]
  | String c s' =>
      if Ascii.eqb c sep then EmptyString :: split sep s'
      else match split sep s' with
           | w :: ws => String c w :: ws
           | [] => [String c EmptyString]
           end
  end.

(** [s.split(sep, 1)[0]] *)
Fixpoint before (sep : ascii) (s : string) : string :=
  match s with
  | EmptyString => EmptyString
  | String c s' => if Ascii.eqb c sep then EmptyString else String c (before sep s')
  end.

(** [s.split(sep, 1)[1]]; [None] stands for the [IndexError]. *)
Fixpoint after (sep : ascii) (s : string) : option string :=
  match s with
  | EmptyString => None
  | String c s' => if Ascii.eqb c sep then Some s' else after sep s'
  end.

(** [str.isspace] on one Latin-1 character: TAB, LF, VT, FF, CR, FS, GS, RS,
    US, SPACE, NEL (0x85) and NBSP (0xa0). *)
Definition isspace (c : ascii) : bool :=
  let n := nat_of_ascii c in
  (((9 <=? n) && (n <=? 13)) || ((28 <=? n) && (n <=? 32))
   || (n =? 133) || (n =? 160))%nat.

(** [s.split()]: the maximal runs of non-space characters. *)
Fixpoint split_ws (s : string) : list string :=
  match s with
  | EmptyString => []
  | String c s' =>
      if isspace c then split_ws s'
      else match s' with
           | EmptyString => [String c EmptyString]
           | String d _ =>
               if isspace d then String c EmptyString :: split_ws s'
               else match split_ws s' with
                    | w :: ws => String c w :: ws
                    | [] => [String c EmptyString]
                    end
           end
  end.

(** [s.rstrip(chars)], the characters to strip given as a predicate *)
Fixpoint rstrip (p : ascii -> bool) (s : string) : string :=
  match s with
  | EmptyString => EmptyString
  | String c s' =>
      match rstrip p s' with
      | EmptyString => if p c then EmptyString else String c EmptyString
      | r => String c r
      end
  end.

(** [s.lstrip(chars)] *)
Fixpoint lstrip (p : ascii -> bool) (s : string) : string :=
  match s with
  | EmptyString => EmptyString
  | String c s' => if p c then lstrip p s' else s
  end.

Definition is_crlf (c : ascii) : bool :=
  Ascii.eqb c "013" || Ascii.eqb c "010".

Definition is_slash (c : ascii) : bool := Ascii.eqb c "/".

(** [s.lower()] on Latin-1 text: A-Z and the accented capitals 0xc0-0xde
    (0xd7, the multiplication sign, apart) move up by 0x20. *)
Definition lower_char (c : ascii) : ascii :=
  let n := nat_of_ascii c in
  if (((65 <=? n) && (n <=? 90))
      || ((192 <=? n) && (n <=? 222) && negb (n =? 215)))%nat
  then ascii_of_nat (n + 32) else c.

Fixpoint lower (s : string) : string :=
  match s with
  | EmptyString => EmptyString
  | String c s' => String (lower_char c) (lower s')
  end.

(** [str(n)] and ["%d" % n] for an integer *)
Definition of_Z (z : Z) : string := NilZero.string_of_int (Z.to_int z).

(** ["%0wd" % n] for a natural number [n] *)
Fixpoint zeros (k : nat) : string :=
  match k with O => EmptyString | S k' => String "0" (zeros k') end.

Definition pad0 (w : nat) (z : Z) : string :=
  let d := of_Z z in zeros (w - String.length d) ++ d.

Definition hex_digit (n : nat) : ascii :=
  if (n <? 10)%nat then ascii_of_nat (48 + n) else ascii_of_nat (87 + n).

(** The escape [\xhh] of one character, two lower-case hex digits. *)
Definition hex_escape (c : ascii) : string :=
  let n := nat_of_ascii c in
  String "\" (String "x" (String (hex_digit (n / 16))
                            (String (hex_digit (n mod 16)) EmptyString))).

Definition map_chars (f : ascii -> string) : string -> string :=
  fix go (s : string) : string :=
    match s with
    | EmptyString => EmptyString
    | String c s' => f c ++ go s'
    end.

(** [html.escape(s, quote=False)] *)
Definition html_escape : string -> string :=
  map_chars (fun c =>
    if Ascii.eqb c "&" then "&amp;"
    else if Ascii.eqb c "<" then "&lt;"
    else if Ascii.eqb c ">" then "&gt;"
    else String c EmptyString).

(** [str.isprintable] on one Latin-1 character beyond ASCII: the C1 controls,
    the no-break space and the soft hyphen are not printable. *)
Definition isprintable_high (n : nat) : bool :=
  ((160 <? n) && negb (n =? 173))%nat.

Definition dquote : ascii := ascii_of_nat 34.

(** [repr(s)], which is what ["%r" % s] formats: double quotes are chosen
    only when the text has a single quote and no double quote. *)
Definition repr (s : string) : string :=
  let q : ascii :=
    if contains "'" s && negb (contains dquote s) then dquote else "'"%char in
  let esc (c : ascii) : string :=
    let n := nat_of_ascii c in
    if Ascii.eqb c q || Ascii.eqb c "\" then String "\" (String c EmptyString)
    else if (n =? 9)%nat then "\t"
    else if (n =? 10)%nat then "\n"
    else if (n =? 13)%nat then "\r"
    else if ((n <? 32) || (n =? 127))%nat then hex_escape c
    else if (n <? 127)%nat then String c EmptyString
    else if isprintable_high n then String c EmptyString
    else hex_escape c in
  String q (map_chars esc s) ++ String q EmptyString.

(** [s.encode('UTF-8', 'replace')] for Latin-1 text: a character above 0x7f
    takes two bytes. *)
Definition utf8 : string -> string :=
  map_chars (fun c =>
    let n := nat_of_ascii c in
    if (n <? 128)%nat then String c EmptyString
    else String (ascii_of_nat (192 + n / 64))
           (String (ascii_of_nat (128 + n mod 64)) EmptyString)).

Definition is_digit (c : ascii) : bool :=
  let n := nat_of_ascii c in ((48 <=? n) && (n <=? 57))%nat.

(** The digits of a decimal literal, most significant first; an underscore
    is allowed between two digits only. *)
Fixpoint digits (s : string) (prev_digit : bool) (acc : Z) (count : nat)
  : option (Z * nat) :=
  match s with
  | EmptyString => if prev_digit then Some (acc, count) else None
  | String c s' =>
      if is_digit c
      then digits s' true (10 * acc + Z.of_nat (nat_of_ascii c - 48))%Z (S count)
      else if Ascii.eqb c "_" && prev_digit then digits s' false acc count
      else None
  end.

(** [sys.int_info.default_max_str_digits] *)
Definition max_str_digits : nat := 4300.

(** [int(s)] for a text without white space (the handler applies it to
    pieces of one word of the request line); [None] stands for the
    [ValueError]. *)
Definition int (s : string) : option Z :=
  let '(neg, body) :=
    match s with
    | String "-" r => (true, r)
    | String "+" r => (false, r)
    | _ => (false, s)
    end in
  match digits body false 0 0 with
  | Some (v, n) =>
      if (max_str_digits <? n)%nat then None
      else Some (if neg then (- v)%Z else v)
  | None => None
  end.

End Str.


(** ** [posixpath] *)

Module posixpath.

Definition isabs (s : string) : bool := Str.startswith s "/".

(** [join(a, b)] *)
Definition join (a b : string) : string :=
  if Str.startswith b "/" then b
  else if (a =? "") || Str.endswith a "/" then a ++ b
  else a ++ "/" ++ b.

(** [p[:p.rfind('/') + 1]] *)
Fixpoint upto_last_slash (p : string) : string :=
  match p with
  | EmptyString => EmptyString
  | String c p' =>
      match upto_last_slash p' with
      | EmptyString => if Str.is_slash c then String c EmptyString else EmptyString
      | r => String c r
      end
  end.

(** [s == '/' * len(s)] *)
Fixpoint all_slashes (s : string) : bool :=
  match s with
  | EmptyString => true
  | String c s' => Str.is_slash c && all_slashes s'
  end.

Definition dirname (p : string) : string :=
  let head := upto_last_slash p in
  if negb (head =? "") && negb (all_slashes head)
  then Str.rstrip Str.is_slash head
  else head.

(** One turn of the loop of [normpath] over the components. *)
Definition normpath_step (initial_slashes : nat) (new_comps : list string)
           (comp : string) : list string :=
  if (comp =? "") || (comp =? ".") then new_comps
  else if negb (comp =? "..")
          || ((initial_slashes =? 0)%nat && match new_comps with [] => true | _ => false end)
          || (match new_comps with [] => false | _ => last new_comps "" =? ".." end)
  then new_comps ++ [comp]
  else removelast new_comps.

Definition normpath (path : string) : string :=
  if path =? "" then "."
  else
    let initial_slashes : nat :=
      if Str.startswith path "/"
      then if Str.startswith path "//" && negb (Str.startswith path "///")
           then 2 else 1
      else 0 in
    let comps := fold_left (normpath_step initial_slashes) (Str.split "/" path) [] in
    let path := String.concat "/" comps in
    let path := match initial_slashes with
                | 0 => path
                | 1 => "/" ++ path
                | _ => "//" ++ path
                end in
    if path =? "" then "." else path.

(** [abspath(path)], with the working directory [os.getcwd()] passed in. *)
Definition abspath (cwd path : string) : string :=
  normpath (if isabs path then path else join cwd path).

End posixpath.


(** ** The world around the program *)

Definition CRLF : string := String "013" (String "010" EmptyString).
Definition LF : string := String "010" EmptyString.

(** A broken-down time, [time.struct_time]: what [datetime.timetuple()] and
    [time.localtime] return.  [tm_mon] counts from 1, [tm_wday] from Monday
    as 0. *)
Record struct_time := {
  tm_year : Z; tm_mon : nat; tm_mday : Z;
  tm_hour : Z; tm_min : Z; tm_sec : Z; tm_wday : nat }.

(** One reading of the system clock, in UTC and in local time. *)
Record Clock := { gmtime : struct_time; localtime : struct_time }.

(** [a <= b] on the date and time of day, as [datetime] compares. *)
Definition time_le (a b : struct_time) : bool :=
  let key t := [tm_year t; Z.of_nat (tm_mon t); tm_mday t; tm_hour t; tm_min t; tm_sec t] in
  (fix le (x y : list Z) : bool :=
     match x, y with
     | u :: x', v :: y' => (u <? v)%Z || ((u =? v)%Z && le x' y')
     | _, _ => true
     end) (key a) (key b).

(** The exceptions that leave a method of the handler.  [UnicodeEncodeError]
    is a subclass of [ValueError]; both carry their message. *)
Inductive Exception :=
| AttributeError (attribute : string)
| TypeError
| ValueError (message : string)
| UnicodeEncodeError (message : string).

(** What a library call does: it returns a value or raises. *)
Inductive Call (A : Type) :=
| Returns (a : A)
| Raises (e : Exception).
Arguments Returns {A} a.
Arguments Raises {A} e.

(** A directory entry as [list_directory] looks at it. *)
Record dirent := { d_name : string; d_isdir : bool; d_islink : bool }.

(** What the operating system makes of a path string.  A file that cannot
    be opened and a directory that cannot be listed are the [OSError] cases
    of [open] and [os.listdir].  [Invalid] is a string that cannot be a path
    at all: it holds a null character ([ValueError: embedded null byte]) or
    a character that the file-system encoding cannot encode, such as a lone
    surrogate ([UnicodeEncodeError], a subclass of [ValueError]).  For such
    a string [os.stat] and [open] raise [error] before the file system is
    looked at; [os.path.isdir] and [os.path.isfile] catch it and answer
    false. *)
Inductive Node :=
| File (readable : bool) (content : string) (st_mtime : struct_time)
| Dir (listing : option (list dirent))
| Invalid (error : Exception).

(** The file system: the operating system's resolution of a path string;
    [None] when nothing has the name ([FileNotFoundError], an [OSError]). *)
Definition FileSystem := string -> option Node.

(** What [http.client.parse_headers] makes of the lines after the request
    line: the header fields in order, or one of its two exceptions with its
    message. *)
Inductive HeaderInput :=
| Headers (fields : list (string * string))
| LineTooLong (err : string)
| HTTPException (err : string).

(** One request as it arrives on a connection: the bytes
    [rfile.readline(65537)] returns and what follows them. *)
Record Request := { line : string; header_input : HeaderInput }.

(** Library functions whose results are taken as given. *)
Record Platform := {
  (** ["Python/" + sys.version.split()[0]] *)
  sys_version : string;
  (** [urllib.parse.unquote(s, errors='surrogatepass')], falling back to
      [unquote(s)], on a text that has a percent sign *)
  unquote_escapes : string -> string;
  (** [SimpleHTTPRequestHandler.guess_type], which consults [mimetypes] *)
  guess_type : string -> string;
  (** [urllib.parse.urlsplit], which raises [ValueError] on a network
      location with an unmatched bracket or with characters that change
      under NFKC normalisation, and [urlunsplit] *)
  urlsplit : string -> Call (string * string * string * string * string);
  urlunsplit : string * string * string * string * string -> string;
  (** [email.utils.parsedate_to_datetime] on an [If-Modified-Since] value:
      the time when the value is well formed and in UTC (or without zone),
      the only case in which [send_head] compares it *)
  parse_ims : string -> option struct_time;
  (** [sys.getfilesystemencoding()] *)
  filesystemencoding : string;
  (** The page [list_directory] builds from [self.path], the directory's
      path and its sorted entries, encoded with
      [encode(enc, 'surrogateescape')], which raises [UnicodeEncodeError]
      when [self.path] unquotes to a text that cannot be encoded *)
  listing_page : string -> string -> list dirent -> Call string;
  (** [list.sort(key=lambda a: a.lower())] on the entries *)
  sort_entries : list dirent -> list dirent }.

(** An observable action of the process. *)
Inductive Event :=
| EvChdir (d : string)
| EvStdout (text : string)
| EvStderr (text : string)
| EvBind (host : string) (port : Z)
| EvListen
| EvAccept (client : string * Z)
| EvShutdownRequest
| EvTraceback (exception : string).

(** The process: its working directory and what it has done so far, oldest
    first. *)
Record Process := { cwd : string; events : list Event }.

Definition emit (e : Event) (p : Process) : Process :=
  {| cwd := cwd p; events := events p ++ [e] |}.

(** Everything written to standard output so far. *)
Definition stdout_of (p : Process) : list string :=
  flat_map (fun e => match e with EvStdout t => [t] | _ => [] end) (events p).

(** ** [http.HTTPStatus], the members this program sends *)

Inductive HTTPStatus :=
| CONTINUE | OK | MOVED_PERMANENTLY | NOT_MODIFIED | BAD_REQUEST | NOT_FOUND
| REQUEST_URI_TOO_LONG | REQUEST_HEADER_FIELDS_TOO_LARGE
| NOT_IMPLEMENTED | HTTP_VERSION_NOT_SUPPORTED.

Definition value (c : HTTPStatus) : Z :=
  match c with
  | CONTINUE => 100 | OK => 200 | MOVED_PERMANENTLY => 301 | NOT_MODIFIED => 304
  | BAD_REQUEST => 400 | NOT_FOUND => 404 | REQUEST_URI_TOO_LONG => 414
  | REQUEST_HEADER_FIELDS_TOO_LARGE => 431
  | NOT_IMPLEMENTED => 501 | HTTP_VERSION_NOT_SUPPORTED => 505
  end.

Definition phrase (c : HTTPStatus) : string :=
  match c with
  | CONTINUE => "Continue"
  | OK => "OK"
  | MOVED_PERMANENTLY => "Moved Permanently"
  | NOT_MODIFIED => "Not Modified"
  | BAD_REQUEST => "Bad Request"
  | NOT_FOUND => "Not Found"
  | REQUEST_URI_TOO_LONG => "Request-URI Too Long"
  | REQUEST_HEADER_FIELDS_TOO_LARGE => "Request Header Fields Too Large"
  | NOT_IMPLEMENTED => "Not Implemented"
  | HTTP_VERSION_NOT_SUPPORTED => "HTTP Version Not Supported"
  end.

Definition description (c : HTTPStatus) : string :=
  match c with
  | CONTINUE => "Request received, please continue"
  | OK => "Request fulfilled, document follows"
  | MOVED_PERMANENTLY => "Object moved permanently -- see URI list"
  | NOT_MODIFIED => "Document has not changed since given time"
  | BAD_REQUEST => "Bad request syntax or unsupported method"
  | NOT_FOUND => "Nothing matches the given URI"
  | REQUEST_URI_TOO_LONG => "URI is too long"
  | REQUEST_HEADER_FIELDS_TOO_LARGE =>
      "The server is unwilling to process the request because its header "
      ++ "fields are too large"
  | NOT_IMPLEMENTED => "Server does not support this operation"
  | HTTP_VERSION_NOT_SUPPORTED => "Cannot fulfill request"
  end.

(** ** The request handler instance and its effects *)

(** One [self.wfile.write(data)]: the header block that [flush_headers]
    writes, kept as the lines it joins, or body bytes written by
    [send_error] and [copyfile]. *)
Inductive Write :=
| HeaderBlock (lines : list string)
| Body (data : string).

(** The attributes of one handler instance, with the process it runs in.
    [rfile] holds the requests still to be read from the connection, [unread]
    what follows the request line just read, [wfile] the writes made to the
    socket, oldest first.  [request_version] and [_headers_buffer] are [None]
    while the attribute does not exist; [command] is [None] for Python's
    [None]. *)
Record Handler := {
  proc : Process;
  client_address : string * Z;
  clock : Clock;
  rfile : list Request;
  unread : HeaderInput;
  wfile : list Write;
  directory : string;
  raw_requestline : string;
  requestline : string;
  request_version : option string;
  command : option string;
  path : string;
  headers : list (string * string);
  close_connection : bool;
  _headers_buffer : option (list string) }.

Definition set_proc (x : Process) (h : Handler) : Handler :=
  {| proc := x;
     client_address := client_address h;
     clock := clock h;
     rfile := rfile h;
     unread := unread h;
     wfile := wfile h;
     directory := directory h;
     raw_requestline := raw_requestline h;
     requestline := requestline h;
     request_version := request_version h;
     command := command h;
     path := path h;
     headers := headers h;
     close_connection := close_connection h;
     _headers_buffer := _headers_buffer h |}.

Definition set_rfile (x : list Request) (h : Handler) : Handler :=
  {| proc := proc h;
     client_address := client_address h;
     clock := clock h;
     rfile := x;
     unread := unread h;
     wfile := wfile h;
     directory := directory h;
     raw_requestline := raw_requestline h;
     requestline := requestline h;
     request_version := request_version h;
     command := command h;
     path := path h;
     headers := headers h;
     close_connection := close_connection h;
     _headers_buffer := _headers_buffer h |}.

Definition set_unread (x : HeaderInput) (h : Handler) : Handler :=
  {| proc := proc h;
     client_address := client_address h;
     clock := clock h;
     rfile := rfile h;
     unread := x;
     wfile := wfile h;
     directory := directory h;
     raw_requestline := raw_requestline h;
     requestline := requestline h;
     request_version := request_version h;
     command := command h;
     path := path h;
     headers := headers h;
     close_connection := close_connection h;
     _headers_buffer := _headers_buffer h |}.

Definition set_wfile (x : list Write) (h : Handler) : Handler :=
  {| proc := proc h;
     client_address := client_address h;
     clock := clock h;
     rfile := rfile h;
     unread := unread h;
     wfile := x;
     directory := directory h;
     raw_requestline := raw_requestline h;
     requestline := requestline h;
     request_version := request_version h;
     command := command h;
     path := path h;
     headers := headers h;
     close_connection := close_connection h;
     _headers_buffer := _headers_buffer h |}.

Definition set_raw_requestline (x : string) (h : Handler) : Handler :=
  {| proc := proc h;
     client_address := client_address h;
     clock := clock h;
     rfile := rfile h;
     unread := unread h;
     wfile := wfile h;
     directory := directory h;
     raw_requestline := x;
     requestline := requestline h;
     request_version := request_version h;
     command := command h;
     path := path h;
     headers := headers h;
     close_connection := close_connection h;
     _headers_buffer := _headers_buffer h |}.

Definition set_requestline (x : string) (h : Handler) : Handler :=
  {| proc := proc h;
     client_address := client_address h;
     clock := clock h;
     rfile := rfile h;
     unread := unread h;
     wfile := wfile h;
     directory := directory h;
     raw_requestline := raw_requestline h;
     requestline := x;
     request_version := request_version h;
     command := command h;
     path := path h;
     headers := headers h;
     close_connection := close_connection h;
     _headers_buffer := _headers_buffer h |}.

Definition set_request_version (x : option string) (h : Handler) : Handler :=
  {| proc := proc h;
     client_address := client_address h;
     clock := clock h;
     rfile := rfile h;
     unread := unread h;
     wfile := wfile h;
     directory := directory h;
     raw_requestline := raw_requestline h;
     requestline := requestline h;
     request_version := x;
     command := command h;
     path := path h;
     headers := headers h;
     close_connection := close_connection h;
     _headers_buffer := _headers_buffer h |}.

Definition set_command (x : option string) (h : Handler) : Handler :=
  {| proc := proc h;
     client_address := client_address h;
     clock := clock h;
     rfile := rfile h;
     unread := unread h;
     wfile := wfile h;
     directory := directory h;
     raw_requestline := raw_requestline h;
     requestline := requestline h;
     request_version := request_version h;
     command := x;
     path := path h;
     headers := headers h;
     close_connection := close_connection h;
     _headers_buffer := _headers_buffer h |}.

Definition set_path (x : string) (h : Handler) : Handler :=
  {| proc := proc h;
     client_address := client_address h;
     clock := clock h;
     rfile := rfile h;
     unread := unread h;
     wfile := wfile h;
     directory := directory h;
     raw_requestline := raw_requestline h;
     requestline := requestline h;
     request_version := request_version h;
     command := command h;
     path := x;
     headers := headers h;
     close_connection := close_connection h;
     _headers_buffer := _headers_buffer h |}.

Definition set_headers (x : list (string * string)) (h : Handler) : Handler :=
  {| proc := proc h;
     client_address := client_address h;
     clock := clock h;
     rfile := rfile h;
     unread := unread h;
     wfile := wfile h;
     directory := directory h;
     raw_requestline := raw_requestline h;
     requestline := requestline h;
     request_version := request_version h;
     command := command h;
     path := path h;
     headers := x;
     close_connection := close_connection h;
     _headers_buffer := _headers_buffer h |}.

Definition set_close_connection (x : bool) (h : Handler) : Handler :=
  {| proc := proc h;
     client_address := client_address h;
     clock := clock h;
     rfile := rfile h;
     unread := unread h;
     wfile := wfile h;
     directory := directory h;
     raw_requestline := raw_requestline h;
     requestline := requestline h;
     request_version := request_version h;
     command := command h;
     path := path h;
     headers := headers h;
     close_connection := x;
     _headers_buffer := _headers_buffer h |}.

Definition set_headers_buffer (x : option (list string)) (h : Handler) : Handler :=
  {| proc := proc h;
     client_address := client_address h;
     clock := clock h;
     rfile := rfile h;
     unread := unread h;
     wfile := wfile h;
     directory := directory h;
     raw_requestline := raw_requestline h;
     requestline := requestline h;
     request_version := request_version h;
     command := command h;
     path := path h;
     headers := headers h;
     close_connection := close_connection h;
     _headers_buffer := x |}.


(** A method body: it returns a value or raises, and either way leaves the
    instance and the process in a new state. *)
Inductive Outcome (A : Type) :=
| Return (a : A) (h : Handler)
| Raise (e : Exception) (h : Handler).
Arguments Return {A} a h.
Arguments Raise {A} e h.

Definition M (A : Type) : Type := Handler -> Outcome A.

Definition ret {A} (a : A) : M A := fun h => Return a h.

Definition bind {A B} (m : M A) (k : A -> M B) : M B :=
  fun h => match m h with
           | Return a h' => k a h'
           | Raise e h' => Raise e h'
           end.

Definition raise {A} (e : Exception) : M A := fun h => Raise e h.
Definition gets {A} (f : Handler -> A) : M A := fun h => Return (f h) h.
Definition modify (f : Handler -> Handler) : M unit := fun h => Return tt (f h).

Declare Scope py_scope.
Delimit Scope py_scope with py.
Notation "x <- m ;; k" := (bind m (fun x => k))
  (at level 61, m at next level, right associativity) : py_scope.
Notation "m ;; k" := (bind m (fun _ => k))
  (at level 61, right associativity) : py_scope.
Open Scope py_scope.

(** [if c: body] without an [else] *)
Definition when (c : bool) (body : M unit) : M unit := if c then body else ret tt.

(** The state an outcome ends in. *)
Definition final {A} (o : Outcome A) : Handler :=
  match o with Return _ h => h | Raise _ h => h end.

(** The bytes of a write, whichever call made it. *)
Definition data_of (w : Write) : string :=
  match w with
  | HeaderBlock lines => String.concat "" lines
  | Body data => data
  end.

(** What a subclass may override, looked up through [self]. *)
Record Class := {
  server_version : string;
  cls_end_headers : M unit }.

(** ** [http.server]: [BaseHTTPRequestHandler] and [SimpleHTTPRequestHandler] *)

Module server.

Definition protocol_version : string := "HTTP/1.0".
Definition default_request_version : string := "HTTP/0.9".
Definition error_content_type : string := "text/html;charset=utf-8".

Definition q : string := String Str.dquote EmptyString.

(** [DEFAULT_ERROR_MESSAGE % {'code': ..., 'message': ..., 'explain': ...}] *)
Definition error_message_format (code : HTTPStatus) (message explain : string)
  : string :=
  "<!DOCTYPE HTML>" ++ LF ++
  "<html lang=" ++ q ++ "en" ++ q ++ ">" ++ LF ++
  "    <head>" ++ LF ++
  "        <meta charset=" ++ q ++ "utf-8" ++ q ++ ">" ++ LF ++
  "        <title>Error response</title>" ++ LF ++
  "    </head>" ++ LF ++
  "    <body>" ++ LF ++
  "        <h1>Error response</h1>" ++ LF ++
  "        <p>Error code: " ++ Str.of_Z (value code) ++ "</p>" ++ LF ++
  "        <p>Message: " ++ message ++ ".</p>" ++ LF ++
  "        <p>Error code explanation: " ++ Str.of_Z (value code) ++ " - "
    ++ explain ++ ".</p>" ++ LF ++
  "    </body>" ++ LF ++
  "</html>" ++ LF.

Definition weekdayname : list string :=
  ["Mon"; "Tue"; "Wed"; "Thu"; "Fri"; "Sat"; "Sun"].

Definition monthname : list string :=
  ["Jan"; "Feb"; "Mar"; "Apr"; "May"; "Jun";
   "Jul"; "Aug"; "Sep"; "Oct"; "Nov"; "Dec"].

(** [email.utils.formatdate(timestamp, usegmt=True)] on the broken-down
    time of the timestamp *)
Definition date_time_string (t : struct_time) : string :=
  nth (tm_wday t) weekdayname "" ++ ", " ++ Str.pad0 2 (tm_mday t) ++ " "
  ++ nth (tm_mon t - 1) monthname "" ++ " " ++ Str.pad0 4 (tm_year t) ++ " "
  ++ Str.pad0 2 (tm_hour t) ++ ":" ++ Str.pad0 2 (tm_min t) ++ ":"
  ++ Str.pad0 2 (tm_sec t) ++ " GMT".

Definition log_date_time_string (t : struct_time) : string :=
  Str.pad0 2 (tm_mday t) ++ "/" ++ nth (tm_mon t - 1) monthname "" ++ "/"
  ++ Str.pad0 4 (tm_year t) ++ " " ++ Str.pad0 2 (tm_hour t) ++ ":"
  ++ Str.pad0 2 (tm_min t) ++ ":" ++ Str.pad0 2 (tm_sec t).

(** [message.translate(self._control_char_table)] *)
Definition control_char_table : string -> string :=
  Str.map_chars (fun c =>
    let n := nat_of_ascii c in
    if Ascii.eqb c "\" then "\\"
    else if ((n <? 32) || ((127 <=? n) && (n <? 160)))%nat then Str.hex_escape c
    else String c EmptyString).

(** [self.headers.get(name, default)], [name in self.headers]: the field
    names are compared in lower case and the first match wins. *)
Fixpoint headers_get (hs : list (string * string)) (name : string)
  : option string :=
  match hs with
  | [] => None
  | (k, v) :: hs' =>
      if Str.lower k =? Str.lower name then Some v else headers_get hs' name
  end.

Definition headers_contains (hs : list (string * string)) (name : string) : bool :=
  match headers_get hs name with Some _ => true | None => false end.

(** [(a, b) >= (c, d)] *)
Definition tuple_ge (x y : Z * Z) : bool :=
  ((fst y <? fst x) || ((fst x =? fst y) && (snd y <=? snd x)))%Z.

(** The [try] block of [parse_request]: the text after [HTTP/] and the
    version number, or [None] for [ValueError] and [IndexError]. *)
Definition parse_version (version : string) : option (string * (Z * Z)) :=
  if negb (Str.startswith version "HTTP/") then None
  else match Str.after "/" version with
       | None => None
       | Some base_version_number =>
           match Str.split "." base_version_number with
           | [major; minor] =>
               match Str.int major, Str.int minor with
               | Some a, Some b => Some (base_version_number, (a, b))
               | _, _ => None
               end
           | _ => None
           end
       end.

Section Methods.

Variable P : Platform.
Variable fs : FileSystem.
Variable self : Class.

(** Reading [self.request_version] *)
Definition get_request_version : M string :=
  v <- gets request_version ;;
  match v with
  | Some v => ret v
  | None => raise (AttributeError "request_version")
  end.

(** Reading [self.path] *)
Definition self_path : M string := gets path.

(** [self.wfile.write(data)] *)
Definition wfile_write (data : Write) : M unit :=
  modify (fun h => set_wfile (wfile h ++ [data])%list h).

(** [if not hasattr(self, '_headers_buffer'): self._headers_buffer = []] *)
Definition ensure_headers_buffer : M unit :=
  b <- gets _headers_buffer ;;
  match b with
  | Some _ => ret tt
  | None => modify (set_headers_buffer (Some []))
  end.

(** [self._headers_buffer.append(data)] *)
Definition headers_buffer_append (data : string) : M unit :=
  b <- gets _headers_buffer ;;
  match b with
  | Some l => modify (set_headers_buffer (Some (l ++ [data])%list))
  | None => raise (AttributeError "_headers_buffer")
  end.

Definition log_message (message : string) : M unit :=
  modify (fun h =>
    set_proc (emit (EvStderr (fst (client_address h) ++ " - - ["
                              ++ log_date_time_string (localtime (clock h)) ++ "] "
                              ++ control_char_table message ++ LF))
                   (proc h)) h).

Definition log_request (code : HTTPStatus) : M unit :=
  r <- gets requestline ;;
  log_message (q ++ r ++ q ++ " " ++ Str.of_Z (value code) ++ " -").

Definition log_error (code : HTTPStatus) (message : string) : M unit :=
  log_message ("code " ++ Str.of_Z (value code) ++ ", message " ++ message).

Definition version_string : string :=
  server_version self ++ " " ++ sys_version P.

Definition send_response_only (code : HTTPStatus) (message : option string)
  : M unit :=
  v <- get_request_version ;;
  when (negb (v =? "HTTP/0.9"))
    (let message := match message with Some m => m | None => phrase code end in
     ensure_headers_buffer ;;
     headers_buffer_append
       (protocol_version ++ " " ++ Str.of_Z (value code) ++ " " ++ message ++ CRLF)).

Definition send_header (keyword value : string) : M unit :=
  v <- get_request_version ;;
  when (negb (v =? "HTTP/0.9"))
    (ensure_headers_buffer ;;
     headers_buffer_append (keyword ++ ": " ++ value ++ CRLF)) ;;
  when (Str.lower keyword =? "connection")
    (if Str.lower value =? "close" then modify (set_close_connection true)
     else if Str.lower value =? "keep-alive" then modify (set_close_connection false)
     else ret tt).

Definition flush_headers : M unit :=
  b <- gets _headers_buffer ;;
  match b with
  | Some l =>
      wfile_write (HeaderBlock l) ;;
      modify (set_headers_buffer (Some []))
  | None => ret tt
  end.

(** [BaseHTTPRequestHandler.end_headers] *)
Definition end_headers : M unit :=
  v <- get_request_version ;;
  when (negb (v =? "HTTP/0.9"))
    (headers_buffer_append CRLF ;; flush_headers).

Definition send_response (code : HTTPStatus) (message : option string) : M unit :=
  log_request code ;;
  send_response_only code message ;;
  send_header "Server" version_string ;;
  now <- gets clock ;;
  send_header "Date" (date_time_string (gmtime now)).

Definition send_error (code : HTTPStatus) (message explain : option string)
  : M unit :=
  let message := match message with Some m => m | None => phrase code end in
  let explain := match explain with Some e => e | None => description code end in
  log_error code message ;;
  send_response code (Some message) ;;
  send_header "Connection" "close" ;;
  body <-
    (if (200 <=? value code)%Z
        && negb (existsb (Z.eqb (value code)) [204; 205; 304]%Z)
     then
       let content :=
         error_message_format code (Str.html_escape message)
                              (Str.html_escape explain) in
       let body := Str.utf8 content in
       send_header "Content-Type" error_content_type ;;
       send_header "Content-Length" (Str.of_Z (Z.of_nat (String.length body))) ;;
       ret (Some body)
     else ret None) ;;
  cls_end_headers self ;;
  c <- gets command ;;
  match body with
  | Some body =>
      when (negb (match c with Some c => c =? "HEAD" | None => false end)
            && negb (body =? ""))
        (wfile_write (Body body))
  | None => ret tt
  end.

Definition handle_expect_100 : M bool :=
  send_response_only CONTINUE None ;;
  cls_end_headers self ;;
  ret true.

(** [parse_request], the block under [if len(words) >= 3]; [false] when
    it has returned [False]. *)
Definition parse_request_version (version : string) : M bool :=
  match parse_version version with
  | None =>
      send_error BAD_REQUEST
        (Some ("Bad request version (" ++ Str.repr version ++ ")")) None ;;
      ret false
  | Some (base_version_number, version_number) =>
      when (tuple_ge version_number (1, 1)%Z
            && String.leb "HTTP/1.1" protocol_version)
        (modify (set_close_connection false)) ;;
      if tuple_ge version_number (2, 0)%Z
      then
        send_error HTTP_VERSION_NOT_SUPPORTED
          (Some ("Invalid HTTP version (" ++ base_version_number ++ ")")) None ;;
        ret false
      else modify (set_request_version (Some version)) ;; ret true
  end.

(** [parse_request], from the examination of the headers on. *)
Definition parse_request_headers : M bool :=
  u <- gets unread ;;
  match u with
  | LineTooLong err =>
      send_error REQUEST_HEADER_FIELDS_TOO_LARGE
        (Some "Line too long") (Some err) ;;
      ret false
  | HTTPException err =>
      send_error REQUEST_HEADER_FIELDS_TOO_LARGE
        (Some "Too many headers") (Some err) ;;
      ret false
  | Headers hs =>
      modify (set_headers hs) ;;
      let conntype :=
        match headers_get hs "Connection" with Some v => v | None => "" end in
      (if Str.lower conntype =? "close" then modify (set_close_connection true)
       else if (Str.lower conntype =? "keep-alive")
               && String.leb "HTTP/1.1" protocol_version
            then modify (set_close_connection false)
            else ret tt) ;;
      let expect :=
        match headers_get hs "Expect" with Some v => v | None => "" end in
      if (Str.lower expect =? "100-continue")
         && String.leb "HTTP/1.1" protocol_version
      then
        v <- get_request_version ;;
        if String.leb "HTTP/1.1" v
        then ok <- handle_expect_100 ;; ret ok
        else ret true
      else ret true
  end.

Definition parse_request : M bool :=
  modify (set_command None) ;;
  modify (set_request_version (Some default_request_version)) ;;
  modify (set_close_connection true) ;;
  raw <- gets raw_requestline ;;
  let requestline := Str.rstrip Str.is_crlf raw in
  modify (set_requestline requestline) ;;
  let words := Str.split_ws requestline in
  if (length words =? 0)%nat then ret false
  else
    ok <- (if (3 <=? length words)%nat
           then parse_request_version (last words "")
           else ret true) ;;
    if negb ok then ret false
    else if negb ((2 <=? length words) && (length words <=? 3))%nat
    then
      send_error BAD_REQUEST
        (Some ("Bad request syntax (" ++ Str.repr requestline ++ ")")) None ;;
      ret false
    else
      let command := nth 0 words "" in
      let path := nth 1 words "" in
      ok <- (if (length words =? 2)%nat
             then
               modify (set_close_connection true) ;;
               if negb (command =? "GET")
               then
                 send_error BAD_REQUEST
                   (Some ("Bad HTTP/0.9 request type (" ++ Str.repr command ++ ")"))
                   None ;;
                 ret false
               else ret true
             else ret true) ;;
      if negb ok then ret false
      else
        modify (set_command (Some command)) ;;
        modify (set_path path) ;;
        when (Str.startswith path "//")
          (modify (set_path ("/" ++ Str.lstrip Str.is_slash path))) ;;
        parse_request_headers.

(** *** [SimpleHTTPRequestHandler] *)

(** [urllib.parse.unquote]: a text without a percent sign is returned as
    it is. *)
Definition unquote (s : string) : string :=
  if negb (Str.contains "%" s) then s else unquote_escapes P s.

(** One turn of the loop of [translate_path] over the words. *)
Definition translate_step (path word : string) : string :=
  if negb (posixpath.dirname word =? "") || (word =? ".") || (word =? "..")
  then path
  else posixpath.join path word.

Definition translate_path (directory path : string) : string :=
  let path := Str.before "?" path in
  let path := Str.before "#" path in
  let trailing_slash := Str.endswith (Str.rstrip Str.isspace path) "/" in
  let path := unquote path in
  let path := posixpath.normpath path in
  let words := Str.split "/" path in
  let words := filter (fun w => negb (w =? "")) words in
  let path := fold_left translate_step words directory in
  if trailing_slash then path ++ "/" else path.

(** [os.path.isdir(path)] and [os.path.isfile(path)]: false when [os.stat]
    raises [OSError] or [ValueError]. *)
Definition isdir (path : string) : bool :=
  match fs path with Some (Dir _) => true | _ => false end.

Definition isfile (path : string) : bool :=
  match fs path with Some (File _ _ _) => true | _ => false end.

(** [shutil.copyfileobj(source, self.wfile)]; nothing is written for an
    empty source, and the body is taken as one write. *)
Definition copyfile (source : string) : M unit :=
  when (negb (source =? "")) (wfile_write (Body source)).

(** [list_directory]: [os.listdir] is guarded by [except OSError] only, and
    the page is encoded before anything is sent. *)
Definition list_directory (path : string) : M (option string) :=
  match fs path with
  | Some (Invalid e) => raise e
  | Some (Dir (Some list)) =>
      let list := sort_entries P list in
      p <- self_path ;;
      let enc := filesystemencoding P in
      match listing_page P p path list with
      | Raises e => raise e
      | Returns encoded =>
          send_response OK None ;;
          send_header "Content-type" ("text/html; charset=" ++ enc) ;;
          send_header "Content-Length" (Str.of_Z (Z.of_nat (String.length encoded))) ;;
          cls_end_headers self ;;
          ret (Some encoded)
      end
  | _ =>
      send_error NOT_FOUND (Some "No permission to list directory") None ;;
      ret None
  end.

(** [send_head], from [ctype = self.guess_type(path)] on.  [open(path, 'rb')]
    is guarded by [except OSError] only: the [ValueError] of a string that
    cannot be a path leaves the method. *)
Definition send_head_file (path : string) : M (option string) :=
  let ctype := guess_type P path in
  if Str.endswith path "/"
  then send_error NOT_FOUND (Some "File not found") None ;; ret None
  else
    match fs path with
    | Some (Invalid e) => raise e
    | Some (File true f st_mtime) =>
        hs <- gets headers ;;
        let not_modified :=
          if headers_contains hs "If-Modified-Since"
             && negb (headers_contains hs "If-None-Match")
          then match headers_get hs "If-Modified-Since" with
               | Some v => match parse_ims P v with
                           | Some ims => time_le st_mtime ims
                           | None => false
                           end
               | None => false
               end
          else false in
        if not_modified
        then send_response NOT_MODIFIED None ;; cls_end_headers self ;; ret None
        else
          send_response OK None ;;
          send_header "Content-type" ctype ;;
          send_header "Content-Length" (Str.of_Z (Z.of_nat (String.length f))) ;;
          send_header "Last-Modified" (date_time_string st_mtime) ;;
          cls_end_headers self ;;
          ret (Some f)
    | _ => send_error NOT_FOUND (Some "File not found") None ;; ret None
    end.

Definition send_head : M (option string) :=
  p <- self_path ;;
  d <- gets directory ;;
  let path := translate_path d p in
  if isdir path
  then
    match urlsplit P p with
    | Raises e => raise e
    | Returns (scheme, netloc, ppath, query, fragment) =>
        if negb (Str.endswith ppath "/")
        then
          send_response MOVED_PERMANENTLY None ;;
          let new_url := urlunsplit P (scheme, netloc, ppath ++ "/", query, fragment) in
          send_header "Location" new_url ;;
          send_header "Content-Length" "0" ;;
          cls_end_headers self ;;
          ret None
        else
          match find isfile (map (posixpath.join path) ["index.html"; "index.htm"]) with
          | Some index => send_head_file index
          | None => list_directory path
          end
    end
  else send_head_file path.

Definition do_GET : M unit :=
  f <- send_head ;;
  match f with
  | Some f => copyfile f
  | None => ret tt
  end.

Definition do_HEAD : M unit :=
  f <- send_head ;;
  ret tt.

(** [getattr(self, mname)] for the names [handle_one_request] asks for;
    [None] when [hasattr] is false. *)
Definition getattr_do (mname : string) : option (M unit) :=
  if mname =? "do_GET" then Some do_GET
  else if mname =? "do_HEAD" then Some do_HEAD
  else None.

(** *** [BaseHTTPRequestHandler.handle] *)

(** [self.rfile.readline(65537)]; the end of the stream reads as the
    empty line. *)
Definition rfile_readline : M string :=
  r <- gets rfile ;;
  match r with
  | [] => ret ""
  | req :: rest =>
      modify (set_rfile rest) ;;
      modify (set_unread (header_input req)) ;;
      ret (line req)
  end.

Definition handle_one_request : M unit :=
  raw <- rfile_readline ;;
  modify (set_raw_requestline raw) ;;
  if (65536 <? Z.of_nat (String.length raw))%Z
  then
    modify (set_requestline "") ;;
    modify (set_request_version (Some "")) ;;
    modify (set_command (Some "")) ;;
    send_error REQUEST_URI_TOO_LONG None None
  else if raw =? ""
  then modify (set_close_connection true)
  else
    ok <- parse_request ;;
    if negb ok then ret tt
    else
      c <- gets command ;;
      match c with
      | None => raise TypeError
      | Some c =>
          match getattr_do ("do_" ++ c) with
          | None =>
              send_error NOT_IMPLEMENTED
                (Some ("Unsupported method (" ++ Str.repr c ++ ")")) None
          | Some method => method
          end
      end.

(** The [while not self.close_connection] loop of [handle]; each turn
    takes a request from [rfile] or meets its end, so [fuel] beyond the
    length of [rfile] is never used up. *)
Fixpoint handle_loop (fuel : nat) : M unit :=
  match fuel with
  | O => ret tt
  | S fuel' =>
      c <- gets close_connection ;;
      if c then ret tt else handle_one_request ;; handle_loop fuel'
  end.

Definition handle : M unit :=
  modify (set_close_connection true) ;;
  handle_one_request ;;
  r <- gets rfile ;;
  handle_loop (S (length r)).

End Methods.

End server.

(** ** [socketserver]: the loop that accepts connections *)

(** One connection as it arrives, with the world as it is while the
    connection is handled. *)
Record Arrival := {
  client : string * Z;
  requests : list Request;
  at_time : Clock;
  files : FileSystem }.

Definition exception_name (e : Exception) : string :=
  match e with
  | AttributeError a => "AttributeError: " ++ a
  | TypeError => "TypeError"
  | ValueError message => "ValueError: " ++ message
  | UnicodeEncodeError message => "UnicodeEncodeError: " ++ message
  end.

Module socketserver.

Section Server.

Variable P : Platform.
(** [self.RequestHandlerClass] *)
Variable RequestHandlerClass : Class.

(** The instance that [RequestHandlerClass(request, client_address, self)]
    starts from: [SimpleHTTPRequestHandler.__init__] stores [os.getcwd()]
    in [self.directory], [StreamRequestHandler.setup] makes the two
    files. *)
Definition new_handler (p : Process) (a : Arrival) : Handler :=
  {| proc := p; client_address := client a; clock := at_time a;
     rfile := requests a; unread := Headers []; wfile := [];
     directory := cwd p; raw_requestline := ""; requestline := "";
     request_version := None; command := None; path := "";
     headers := []; close_connection := true; _headers_buffer := None |}.

Definition finish_request (p : Process) (a : Arrival) : Outcome unit :=
  server.handle P (files a) RequestHandlerClass (new_handler p a).

(** [handle_error]: three lines and a traceback on standard error. *)
Definition handle_error (a : Arrival) (e : Exception) (p : Process) : Process :=
  let dashes := "----------------------------------------" ++ LF in
  let p := emit (EvStderr dashes) p in
  let p := emit (EvStderr ("Exception occurred during processing of request from ("
                           ++ Str.repr (fst (client a)) ++ ", "
                           ++ Str.of_Z (snd (client a)) ++ ")" ++ LF)) p in
  let p := emit (EvTraceback (exception_name e)) p in
  emit (EvStderr dashes) p.

(** [_handle_request_noblock] on a connection that is ready; the result
    is the process afterwards and what was written to the connection.  An
    exception that leaves the handler is reported by [handle_error]; either
    way the connection is shut down and the loop goes on. *)
Definition _handle_request_noblock (p : Process) (a : Arrival)
  : Process * list Write :=
  let p := emit (EvAccept (client a)) p in
  match finish_request p a with
  | Return _ h => (emit EvShutdownRequest (proc h), wfile h)
  | Raise e h => (emit EvShutdownRequest (handle_error a e (proc h)), wfile h)
  end.

(** [serve_forever] over the connections that arrive, in order; nothing
    sets the shutdown flag, so the loop is still running after the last
    of them. *)
Fixpoint serve_forever (p : Process) (arrivals : list Arrival)
  : Process * list (list Write) :=
  match arrivals with
  | [] => (p, [])
  | a :: rest =>
      let '(p', response) := _handle_request_noblock p a in
      let '(p'', responses) := serve_forever p' rest in
      (p'', response :: responses)
  end.

End Server.

End socketserver.

(** ** [serve.py] *)

Module NoCacheHandler.

(** [def end_headers(self)] *)
Definition end_headers : M unit :=
  server.send_header "Cache-Control" "no-store, no-cache, must-revalidate, max-age=0" ;;
  server.send_header "Pragma" "no-cache" ;;
  server.send_header "Expires" "0" ;;
  server.end_headers.

End NoCacheHandler.

(** [class SimpleHTTPRequestHandler(BaseHTTPRequestHandler)] *)
Definition SimpleHTTPRequestHandler : Class :=
  {| server_version := "SimpleHTTP/0.6";
     cls_end_headers := server.end_headers |}.

(** [class NoCacheHandler(http.server.SimpleHTTPRequestHandler)] *)
Definition NoCacheHandler_class : Class :=
  {| server_version := server_version SimpleHTTPRequestHandler;
     cls_end_headers := NoCacheHandler.end_headers |}.

(** What the operating system and the interpreter give the script: the path
    it was started as, its arguments and environment variables, and the
    working directory it starts in.  The system calls of the script are taken
    to succeed, but for [bind], whose failure (the port is in use) ends the
    script: [os_chdir d] is the working directory [os.getcwd()] reports after
    [os.chdir(d)], and [socket_bind host port] tells whether the address
    could be bound. *)
Record Environment := {
  __file__ : string;
  argv : list string;
  environ : list (string * string);
  getcwd : string;
  os_chdir : string -> string;
  socket_bind : string -> Z -> bool;
  platform : Platform }.

(** How a run stands: ended by an unhandled exception, or inside
    [serve_forever]. *)
Inductive Status := Terminated | Serving.

Record Run := {
  status : Status;
  process : Process;
  responses : list (list Write) }.

Module serve.

Definition banner : string := "Serving at http://localhost:9091 (no-cache)".

(** The argument of [os.chdir]:
    [os.path.dirname(os.path.abspath(__file__))]. *)
Definition script_directory (env : Environment) : string :=
  posixpath.dirname (posixpath.abspath (getcwd env) (__file__ env)).

(** The script, statement by statement, then the connections that
    arrive. *)
Definition main (env : Environment) (arrivals : list Arrival) : Run :=
  let p := {| cwd := getcwd env; events := [] |} in
  (* os.chdir(os.path.dirname(os.path.abspath(__file__))) *)
  let d := script_directory env in
  let p := {| cwd := os_chdir env d; events := events (emit (EvChdir d) p) |} in
  (* print("Serving at http://localhost:9091 (no-cache)") *)
  let p := emit (EvStdout (banner ++ LF)) p in
  (* http.server.HTTPServer(('', 9091), NoCacheHandler) *)
  let p := emit (EvBind "" 9091) p in
  if socket_bind env "" 9091%Z
  then
    let p := emit EvListen p in
    (* .serve_forever() *)
    let '(p, rs) :=
      socketserver.serve_forever (platform env) NoCacheHandler_class p arrivals in
    {| status := Serving; process := p; responses := rs |}
  else
    {| status := Terminated;
       process := emit (EvTraceback "OSError") p;
       responses := [] |}.

End serve.

(** * Vocabulary of the statements *)

(** [sat o Q E]: when the outcome [o] is a return, its value and final
    state satisfy [Q]; when it is a raise, its exception and final state
    satisfy [E]. *)
Definition sat {A} (o : Outcome A) (Q : A -> Handler -> Prop)
           (E : Exception -> Handler -> Prop) : Prop :=
  match o with Return a h => Q a h | Raise e h => E e h end.

(** The outcome does not raise. *)
Definition never : Exception -> Handler -> Prop := fun _ _ => False.

(** [sat2 o1 o2 R X]: both outcomes are returns, related by [R], or both
    are raises, related by [X]. *)
Definition sat2 {A B} (o1 : Outcome A) (o2 : Outcome B)
           (R : A -> Handler -> B -> Handler -> Prop)
           (X : Exception -> Handler -> Exception -> Handler -> Prop) : Prop :=
  match o1, o2 with
  | Return a1 h1, Return a2 h2 => R a1 h1 a2 h2
  | Raise e1 h1, Raise e2 h2 => X e1 h1 e2 h2
  | _, _ => False
  end.

(** The exception an outcome raises. *)
Definition raised {A} (o : Outcome A) : option Exception :=
  match o with Return _ _ => None | Raise e _ => Some e end.

(** ** The header buffer *)

Definition lines_of (b : option (list string)) : list string :=
  match b with Some l => l | None => [] end.

Definition is09 (v : string) : bool := v =? "HTTP/0.9".

(** What one [send_header] does to [_headers_buffer]; [simple_request] tells
    whether the request is handled as HTTP/0.9. *)
Definition put_buf (simple_request : bool) (ln : string) (b : option (list string))
  : option (list string) :=
  if simple_request then b else Some (lines_of b ++ [ln])%list.

Definition put (v ln : string) (h : Handler) : Handler :=
  set_headers_buffer (put_buf (is09 v) ln (_headers_buffer h)) h.

(** The line [send_header] makes of a field, and the one
    [send_response_only] makes of a status. *)
Definition header_line (field : string * string) : string :=
  fst field ++ ": " ++ snd field ++ CRLF.

Definition status_line (code : HTTPStatus) (message : string) : string :=
  server.protocol_version ++ " " ++ Str.of_Z (value code) ++ " " ++ message ++ CRLF.

(** What [end_headers] does when the lines [extra] are sent first: the
    buffer, the extra lines and the blank line go out as one header block. *)
Definition flush_buf (simple_request : bool) (b : option (list string))
  : option (list string) :=
  if simple_request then b else Some [].

Definition flush_wfile (simple_request : bool) (extra : list string)
           (b : option (list string)) (w : list Write) : list Write :=
  if simple_request then w
  else (w ++ [HeaderBlock (lines_of b ++ extra ++ [CRLF])])%list.

Definition flush (v : string) (extra : list string) (h : Handler) : Handler :=
  set_headers_buffer (flush_buf (is09 v) (_headers_buffer h))
    (set_wfile (flush_wfile (is09 v) extra (_headers_buffer h) (wfile h)) h).

(** A field whose name is not [Connection] only goes to the buffer. *)
Definition plain (field : string * string) : Prop :=
  (Str.lower (fst field) =? "connection") = false.

(** ** Handler classes that send fields before ending the headers *)

(** [self.send_header(k, v)] for each field, then the rest. *)
Definition send_fields (fields : list (string * string)) (rest : M unit) : M unit :=
  fold_right (fun field m => server.send_header (fst field) (snd field) ;; m)
             rest fields.

(** A subclass of [SimpleHTTPRequestHandler] whose [end_headers] sends
    [fields] and then calls [super().end_headers()]. *)
Definition with_fields (fields : list (string * string)) : Class :=
  {| server_version := "SimpleHTTP/0.6";
     cls_end_headers := send_fields fields server.end_headers |}.

(** The three fields of [NoCacheHandler.end_headers], in its order. *)
Definition no_cache_fields : list (string * string) :=
  [("Cache-Control", "no-store, no-cache, must-revalidate, max-age=0");
   ("Pragma", "no-cache");
   ("Expires", "0")].

(** ** The process *)

Definition is_stderr (e : Event) : Prop :=
  match e with EvStderr _ => True | _ => False end.

(** [p'] is [p] after some writes to standard error and nothing else. *)
Definition extends (p p' : Process) : Prop :=
  cwd p' = cwd p /\ exists l, events p' = (events p ++ l)%list /\ Forall is_stderr l.

(** What the serving loop does: it accepts a connection, writes to
    standard error (the log lines of the handler, the report of an exception
    with its traceback), and shuts the connection down. *)
Definition is_serving (e : Event) : Prop :=
  match e with
  | EvAccept _ | EvShutdownRequest | EvStderr _ | EvTraceback _ => True
  | _ => False
  end.

Definition advances (p p' : Process) : Prop :=
  cwd p' = cwd p /\ exists l, events p' = (events p ++ l)%list /\ Forall is_serving l.

(** ** Paths inside the document root *)

(** A word that [translate_path] keeps: a plain name, neither [.] nor [..]
    and without a slash. *)
Definition simple (word : string) : bool :=
  negb (negb (posixpath.dirname word =? "") || (word =? ".") || (word =? "..")).

(** The paths made from [root] by joining plain names, with or without a
    slash at the end. *)
Inductive inside (root : string) : string -> Prop :=
| inside_root : inside root root
| inside_join p word :
    inside root p -> simple word = true -> inside root (posixpath.join p word)
| inside_slash p : inside root p -> inside root (p ++ "/").

(** ** Responses *)

Section Replies.

Variable P : Platform.
Variable fs : FileSystem.
Variable root : string.
Variables e1 e2 : list (string * string).
Variables clk1 clk2 : Clock.

(** Where the bytes of a body come from: the error page, a file at a path
    inside the root, or the listing of a directory inside the root. *)
Definition source (b : string) : Prop :=
  (exists code message explain,
      b = Str.utf8 (server.error_message_format code message explain))
  \/ (exists p mtime, inside root p /\ fs p = Some (File true b mtime))
  \/ (exists p entries request_path,
         inside root p /\ fs p = Some (Dir (Some entries))
         /\ listing_page P request_path p (sort_entries P entries) = Returns b).

(** Why the handler raises: a path inside the root is a string that cannot
    be a path, or [urlsplit] raises on the target of the request, or the
    listing of a directory inside the root cannot be encoded. *)
Definition cause (e : Exception) : Prop :=
  (exists p, inside root p /\ fs p = Some (Invalid e))
  \/ (exists request_path, urlsplit P request_path = Raises e)
  \/ (exists p entries request_path,
         inside root p /\ fs p = Some (Dir (Some entries))
         /\ listing_page P request_path p (sort_entries P entries) = Raises e).

Definition bodies_ok (bodies : list Write) : Prop :=
  bodies = [] \/ exists b, bodies = [Body b] /\ source b.

(** The writes of two runs for one response under request version [v], the
    first by a class that adds the fields [e1] at the time [clk1], the second
    by one that adds [e2] at the time [clk2]: no header block for HTTP/0.9;
    otherwise one header block, which starts with the status line and the
    fields [Server] and [Date] of [send_response] and differs between the
    runs in the date and the added fields only. *)
Definition reply (v : string) (bodies w1 w2 : list Write) : Prop :=
  if is09 v then w1 = bodies /\ w2 = bodies
  else exists ls1 ls2,
      w1 = HeaderBlock (ls1 ++ map header_line e1 ++ [CRLF]) :: bodies
      /\ w2 = HeaderBlock (ls2 ++ map header_line e2 ++ [CRLF]) :: bodies
      /\ exists code message rest,
          ls1 = status_line code message
                :: header_line ("Server", server.version_string P SimpleHTTPRequestHandler)
                :: header_line ("Date", server.date_time_string (gmtime clk1))
                :: rest
          /\ ls2 = status_line code message
                   :: header_line ("Server", server.version_string P SimpleHTTPRequestHandler)
                   :: header_line ("Date", server.date_time_string (gmtime clk2))
                   :: rest.

(** The state of a handler that has parsed a request and sent nothing. *)
Definition in_flight (q : Process) (ca : string * Z) (clk : Clock)
           (rf : list Request) (ur : HeaderInput) (raw rl v : string)
           (c : option string) (pth : string) (hs : list (string * string))
  : Handler :=
  {| proc := q; client_address := ca; clock := clk; rfile := rf; unread := ur;
     wfile := []; directory := root; raw_requestline := raw; requestline := rl;
     request_version := Some v; command := c; path := pth; headers := hs;
     close_connection := true; _headers_buffer := None |}.

Definition responded (q : Process) (ca : string * Z) (clk : Clock)
           (rf : list Request) (ur : HeaderInput) (raw rl v : string)
           (c : option string) (pth : string) (hs : list (string * string))
           (w : list Write) (b : option (list string))
  : Handler :=
  {| proc := q; client_address := ca; clock := clk; rfile := rf; unread := ur;
     wfile := w; directory := root; raw_requestline := raw; requestline := rl;
     request_version := Some v; command := c; path := pth; headers := hs;
     close_connection := true; _headers_buffer := b |}.

(** The two runs after [send_head]: the same result, related writes, and a
    file to copy only when no body has been written. *)
Definition head_sent (q1 q2 : Process) (ca1 ca2 : string * Z) rf ur raw rl v c pth hs
           (f1 : option string) (g1 : Handler) (f2 : option string) (g2 : Handler)
  : Prop :=
  f1 = f2
  /\ exists q1' q2' w1 w2 b1 b2 bodies,
      g1 = responded q1' ca1 clk1 rf ur raw rl v c pth hs w1 b1
      /\ g2 = responded q2' ca2 clk2 rf ur raw rl v c pth hs w2 b2
      /\ extends q1 q1' /\ extends q2 q2'
      /\ reply v bodies w1 w2
      /\ match f1 with
         | None => bodies_ok bodies
         | Some content => bodies = [] /\ source content
         end.

(** The two runs when [send_head] raises: the same exception, for one of
    the three causes, and both handlers as they were, with nothing sent and
    nothing logged. *)
Definition head_failed (q1 q2 : Process) (ca1 ca2 : string * Z) rf ur raw rl v c pth hs
           (x1 : Exception) (g1 : Handler) (x2 : Exception) (g2 : Handler)
  : Prop :=
  x1 = x2 /\ cause x1
  /\ g1 = in_flight q1 ca1 clk1 rf ur raw rl v c pth hs
  /\ g2 = in_flight q2 ca2 clk2 rf ur raw rl v c pth hs.

(** The two runs of [handle] on one connection, started in the processes
    [p1] and [p2]: the same request version, related writes, both
    connections closed, and only log lines added to the process. *)
Definition handled (p1 p2 : Process) (h1 h2 : Handler) : Prop :=
  extends p1 (proc h1) /\ extends p2 (proc h2)
  /\ close_connection h1 = true /\ close_connection h2 = true
  /\ request_version h1 = request_version h2
  /\ match request_version h1 with
     | None => wfile h1 = [] /\ wfile h2 = []
     | Some v => exists bodies,
         reply v bodies (wfile h1) (wfile h2) /\ bodies_ok bodies
     end.

(** The two runs of [handle] when an exception leaves it: the same
    exception, for one of the three causes; nothing has been written to the
    connection and nothing logged. *)
Definition failed (p1 p2 : Process) (x1 : Exception) (h1 : Handler)
           (x2 : Exception) (h2 : Handler) : Prop :=
  x1 = x2 /\ cause x1
  /\ proc h1 = p1 /\ proc h2 = p2
  /\ wfile h1 = [] /\ wfile h2 = [].

End Replies.

(** What the server of [serve.py] writes to one connection when its
    working directory is [root]. *)
Definition answer (P : Platform) (root : string) (a : Arrival) : list Write :=
  wfile (final (socketserver.finish_request P NoCacheHandler_class
                  {| cwd := root; events := [] |} a)).

(** The same for [SimpleHTTPRequestHandler] itself, the baseline. *)
Definition baseline_answer (P : Platform) (root : string) (a : Arrival) : list Write :=
  wfile (final (socketserver.finish_request P SimpleHTTPRequestHandler
                  {| cwd := root; events := [] |} a)).

(** The working directory the script serves from. *)
Definition document_root (env : Environment) : string :=
  os_chdir env (serve.script_directory env).

(** The status code a client reads off a response: the second word of the
    first line of its header block. *)
Definition status_of (response : list Write) : option string :=
  match response with
  | HeaderBlock (first :: _) :: _ => nth_error (Str.split " " first) 1
  | _ => None
  end.

(** The header lines of a response, when it has a header block. *)
Definition header_lines (response : list Write) : option (list string) :=
  match response with
  | HeaderBlock lines :: _ => Some lines
  | _ => None
  end.

(** The body bytes of a response. *)
Definition body_of (response : list Write) : string :=
  String.concat ""
    (flat_map (fun w => match w with Body b => [b] | HeaderBlock _ => [] end) response).

(** The three lines the no-cache fields make, as they stand in a header
    block. *)
Definition no_cache_lines : list string := map header_line no_cache_fields.

(** [lines] ends with the no-cache lines and the blank line. *)
Definition ends_no_cache (lines : list string) : Prop :=
  exists before, lines = (before ++ no_cache_lines ++ [CRLF])%list.

(** What the script does before it binds, and the bind. *)
Definition startup (env : Environment) : list Event :=
  [EvChdir (serve.script_directory env);
   EvStdout (serve.banner ++ LF);
   EvBind "" 9091%Z].

(** [self.path] as [parse_request] stores it for the target of the request
    line. *)
Definition request_path (target : string) : string :=
  if Str.startswith target "//" then "/" ++ Str.lstrip Str.is_slash target else target.

(** The page [send_error] builds for a status and a message. *)
Definition error_page (code : HTTPStatus) (message : string) : string :=
  Str.utf8 (server.error_message_format code (Str.html_escape message)
                                        (Str.html_escape (description code))).

(** The response [send_error(HTTPStatus.NOT_FOUND, "File not found")] makes
    in the server of [serve.py] at the time [t], to a request with the
    method [method]. *)
Definition not_found_response (P : Platform) (t : Clock) (method : string)
  : list Write :=
  HeaderBlock
    ([status_line NOT_FOUND "File not found";
      header_line ("Server", server.version_string P NoCacheHandler_class);
      header_line ("Date", server.date_time_string (gmtime t));
      header_line ("Connection", "close");
      header_line ("Content-Type", server.error_content_type);
      header_line ("Content-Length",
                   Str.of_Z (Z.of_nat (String.length (error_page NOT_FOUND "File not found"))))]
       ++ map header_line no_cache_fields ++ [CRLF])
  :: (if method =? "HEAD" then [] else [Body (error_page NOT_FOUND "File not found")]).

(** ** Shapes of a response *)

(** A response without a header block: nothing at all, or body bytes. *)
Definition only_body (response : list Write) : Prop :=
  response = [] \/ exists b, response = [Body b].

(** A response whose header block ends with the three no-cache lines and
    the blank line, followed by at most a body. *)
Definition with_no_cache_headers (response : list Write) : Prop :=
  exists lines bodies,
    response = HeaderBlock lines :: bodies
    /\ ends_no_cache lines /\ only_body bodies.

(** The response has a header block that holds each of the three no-cache
    lines. *)
Definition carries_no_cache (response : list Write) : Prop :=
  exists lines, header_lines response = Some lines /\ incl no_cache_lines lines.

(** Every write of a response that is a body comes from [source]. *)
Definition sourced (P : Platform) (fs : FileSystem) (root : string)
           (response : list Write) : Prop :=
  Forall (fun w => match w with
                   | Body b => source P fs root b
                   | HeaderBlock _ => True
                   end) response.

(** ** Kinds of events *)

Definition is_chdir (e : Event) : bool :=
  match e with EvChdir _ => true | _ => false end.

Definition is_stdout (e : Event) : bool :=
  match e with EvStdout _ => true | _ => false end.

Definition is_bind (e : Event) : bool :=
  match e with EvBind _ _ => true | _ => false end.

(** The environment of another invocation of the same script: other
    arguments and other environment variables. *)
Definition with_arguments (argv' : list string) (environ' : list (string * string))
           (env : Environment) : Environment :=
  {| __file__ := __file__ env;
     argv := argv';
     environ := environ';
     getcwd := getcwd env;
     os_chdir := os_chdir env;
     socket_bind := socket_bind env;
     platform := platform env |}.

(** * A small world for the examples *)

Definition sample_platform : Platform :=
  {| sys_version := "Python/3.11.2";
     unquote_escapes := fun s => s;
     guess_type := fun _ => "application/octet-stream";
     urlsplit := fun s => Returns ("", "", s, "", "");
     urlunsplit := fun parts => let '(_, _, p, _, _) := parts in p;
     parse_ims := fun _ => None;
     filesystemencoding := "utf-8";
     listing_page := fun _ _ _ => Returns "<html>listing</html>";
     sort_entries := fun entries => entries |}.

(** Tuesday 3 November 2026, at noon and one second later. *)
Definition noon : struct_time :=
  {| tm_year := 2026; tm_mon := 11; tm_mday := 3;
     tm_hour := 12; tm_min := 0; tm_sec := 0; tm_wday := 1 |}.

Definition just_after_noon : struct_time :=
  {| tm_year := 2026; tm_mon := 11; tm_mday := 3;
     tm_hour := 12; tm_min := 0; tm_sec := 1; tm_wday := 1 |}.

(** The directory [/srv/chess] with the script, a page, and a directory
    [etc] that holds a file [passwd] of its own.  A string with a null
    character is no path. *)
Definition sample_files : FileSystem := fun p =>
  if Str.contains "000" p then Some (Invalid (ValueError "embedded null byte"))
  else if p =? "/srv/chess"
  then Some (Dir (Some [{| d_name := "etc"; d_isdir := true; d_islink := false |};
                        {| d_name := "index.html"; d_isdir := false; d_islink := false |};
                        {| d_name := "serve.py"; d_isdir := false; d_islink := false |}]))
  else if p =? "/srv/chess/index.html" then Some (File true "<html>chess</html>" noon)
  else if p =? "/srv/chess/serve.py" then Some (File true "import http.server" noon)
  else if p =? "/srv/chess/etc"
  then Some (Dir (Some [{| d_name := "passwd"; d_isdir := false; d_islink := false |}]))
  else if p =? "/srv/chess/etc/passwd" then Some (File true "a file of the site" noon)
  else if p =? "/etc/passwd" then Some (File true "root:x:0:0" noon)
  else None.

Definition sample_env : Environment :=
  {| __file__ := "serve.py";
     argv := ["serve.py"];
     environ := [];
     getcwd := "/srv/chess";
     os_chdir := fun d => d;
     socket_bind := fun _ _ => true;
     platform := sample_platform |}.

(** The same, with the port taken by another process. *)
Definition sample_env_port_in_use : Environment :=
  {| __file__ := "serve.py";
     argv := ["serve.py"];
     environ := [];
     getcwd := "/srv/chess";
     os_chdir := fun d => d;
     socket_bind := fun _ _ => false;
     platform := sample_platform |}.

(** A connection on which the one request line [request_line] arrives, with
    no header fields, at time [t]. *)
Definition connection (request_line : string) (t : struct_time) : Arrival :=
  {| client := ("127.0.0.1", 50000%Z);
     requests := [{| line := request_line ++ CRLF; header_input := Headers [] |}];
     at_time := {| gmtime := t; localtime := t |};
     files := sample_files |}.

(** * More vocabulary: requests and responses *)

(** The first request of the connection [a] has a request line of at most
    65536 bytes and of three words, the last a version that [parse_request]
    accepts below 2.0 and that is not the text HTTP/0.9, and header fields
    that parse to [fields]. *)
Definition arrives (a : Arrival) (method target version : string)
           (fields : list (string * string)) : Prop :=
  exists r rest base number,
    requests a = r :: rest
    /\ (Z.of_nat (String.length (line r)) <= 65536)%Z
    /\ Str.split_ws (Str.rstrip Str.is_crlf (line r)) = [method; target; version]
    /\ server.parse_version version = Some (base, number)
    /\ server.tuple_ge number (2, 0)%Z = false
    /\ (version =? "HTTP/0.9") = false
    /\ header_input r = Headers fields.

(** The three lines [send_response] buffers at the time [t]. *)
Definition response_head (P : Platform) (t : Clock) (code : HTTPStatus)
           (message : string) : list string :=
  [status_line code message;
   header_line ("Server", server.version_string P NoCacheHandler_class);
   header_line ("Date", server.date_time_string (gmtime t))].

(** The response [send_error(code, message)] makes in the server of
    [serve.py], for a [code] from 400 on, with the error page as body or
    without it. *)
Definition error_response (P : Platform) (t : Clock) (code : HTTPStatus)
           (message : string) (with_body : bool) : list Write :=
  HeaderBlock
    (response_head P t code message
     ++ [header_line ("Connection", "close");
         header_line ("Content-Type", server.error_content_type);
         header_line ("Content-Length",
                      Str.of_Z (Z.of_nat (String.length (error_page code message))))]
     ++ no_cache_lines ++ [CRLF])
  :: (if with_body then [Body (error_page code message)] else []).

(** The response to a request for the file at [path], with the content
    [content], last modified at [mtime]. *)
Definition file_response (P : Platform) (t : Clock) (path content : string)
           (mtime : struct_time) (with_body : bool) : list Write :=
  HeaderBlock
    (response_head P t OK "OK"
     ++ [header_line ("Content-type", guess_type P path);
         header_line ("Content-Length", Str.of_Z (Z.of_nat (String.length content)));
         header_line ("Last-Modified", server.date_time_string mtime)]
     ++ no_cache_lines ++ [CRLF])
  :: (if with_body && negb (content =? "") then [Body content] else []).

(** The test [send_head] makes of the header fields of the request against
    the time of last modification of the file. *)
Definition not_modified (P : Platform) (fields : list (string * string))
           (mtime : struct_time) : bool :=
  if server.headers_contains fields "If-Modified-Since"
     && negb (server.headers_contains fields "If-None-Match")
  then match server.headers_get fields "If-Modified-Since" with
       | Some v => match parse_ims P v with
                   | Some ims => time_le mtime ims
                   | None => false
                   end
       | None => false
       end
  else false.



(** No request line: the connection ends before any byte, or its first
    line has no word. *)
Definition no_request_line (a : Arrival) : Prop :=
  match requests a with
  | [] => True
  | r :: _ =>
      (Z.of_nat (String.length (line r)) <= 65536)%Z
      /\ Str.split_ws (Str.rstrip Str.is_crlf (line r)) = []
  end.

(** ** More of the small world *)


(** A platform on which [urlsplit] refuses an opening bracket without the
    closing one and separates the query, and on which the listing for a
    target with a percent sign cannot be encoded. *)
Definition sample_platform_strict : Platform :=
  {| sys_version := "Python/3.11.2";
     unquote_escapes := fun s => s;
     guess_type := fun _ => "application/octet-stream";
     urlsplit := fun s =>
       if Str.contains "[" s && negb (Str.contains "]" s)
       then Raises (ValueError "Invalid IPv6 URL")
       else Returns ("", "", Str.before "?" s,
                     match Str.after "?" s with Some query => query | None => "" end, "");
     urlunsplit := fun parts => let '(_, _, p, _, _) := parts in p;
     parse_ims := fun _ => None;
     filesystemencoding := "utf-8";
     listing_page := fun target _ _ =>
       if Str.contains "%" target
       then Raises (UnicodeEncodeError "surrogates not allowed")
       else Returns "<html>listing</html>";
     sort_entries := fun entries => entries |}.

(** The sample files as the operating system resolves them when a
    directory is named with a slash at the end, and a directory
    [private] that cannot be listed. *)
Definition sample_tree : FileSystem := fun p =>
  if p =? "/srv/chess/" then sample_files "/srv/chess"
  else if p =? "/srv/chess/etc/" then sample_files "/srv/chess/etc"
  else if p =? "/srv/chess/private/" then Some (Dir None)
  else sample_files p.

(** A connection on which one request arrives: its line, its header
    fields, the time and the files. *)
Definition connection_with (fs : FileSystem) (request_line : string)
           (fields : list (string * string)) (t : struct_time) : Arrival :=
  {| client := ("127.0.0.1", 50000%Z);
     requests := [{| line := request_line ++ CRLF; header_input := Headers fields |}];
     at_time := {| gmtime := t; localtime := t |};
     files := fs |}.

(** A request line whose target holds a null character. *)
Definition null_request_line : string :=
  "GET /a" ++ String "000" "b HTTP/1.1".

(** A connection on which [readline(65537)] returns 65537 bytes without
    reaching the end of the line. *)
Definition long_connection : Arrival :=
  {| client := ("127.0.0.1", 50000%Z);
     requests := [{| line := Str.zeros (Z.to_nat 65537); header_input := Headers [] |}];
     at_time := {| gmtime := noon; localtime := noon |};
     files := sample_files |}.

(** The page [send_error] builds when the explanation is given. *)
Definition error_page_explained (code : HTTPStatus) (message explain : string) : string :=
  Str.utf8 (server.error_message_format code (Str.html_escape message)
                                        (Str.html_escape explain)).

(** A control character of Latin-1: below 0x20, or from 0x7f to 0x9f. *)
Definition is_control (c : ascii) : bool :=
  let n := nat_of_ascii c in ((n <? 32) || ((127 <=? n) && (n <? 160)))%nat.

Fixpoint has_control (s : string) : bool :=
  match s with
  | EmptyString => false
  | String c s' => is_control c || has_control s'
  end.

(** A connection whose request has a header line beyond the limit of
    [http.client]. *)
Definition connection_long_header : Arrival :=
  {| client := ("127.0.0.1", 50000%Z);
     requests := [{| line := "GET /index.html HTTP/1.1" ++ CRLF;
                     header_input :=
                       LineTooLong "got more than 65536 bytes when reading header line" |}];
     at_time := {| gmtime := noon; localtime := noon |};
     files := sample_files |}.


(** * Reasoning about method bodies *)




Lemma sat_assoc {A B C} (m : M A) (f : A -> M B) (g : B -> M C) h Q E :
  sat (bind m (fun a => bind (f a) g) h) Q E -> sat (bind (bind m f) g h) Q E.
Proof. unfold sat, bind. destruct (m h); auto. Qed.

Lemma sat_last {A} (m : M A) h Q E : sat (bind m ret h) Q E -> sat (m h) Q E.
Proof. unfold sat, bind, ret. destruct (m h); auto. Qed.

Lemma sat_eq {A B} (m : M A) (k : A -> M B) h a h' Q E :
  m h = Return a h' -> sat (k a h') Q E -> sat (bind m k h) Q E.
Proof. unfold bind. intros ->. auto. Qed.

Lemma sat_if_same {A B} (c : bool) (m1 m2 : M A) (k : A -> M B) h a h' Q E :
  m1 h = Return a h' -> m2 h = Return a h' ->
  sat (k a h') Q E -> sat (bind (if c then m1 else m2) k h) Q E.
Proof.
  intros H1 H2. destruct c;
    [exact (sat_eq _ _ _ _ _ _ _ H1) | exact (sat_eq _ _ _ _ _ _ _ H2)].
Qed.

(** An outcome that does not raise is a return. *)
Lemma sat_final {A} (o : Outcome A) Q :
  sat o Q never -> exists a, o = Return a (final o) /\ Q a (final o).
Proof. destruct o; cbn; [eauto | intros []]. Qed.

(** What holds of a return and of a raise holds of the final state. *)
Lemma sat_either {A} (o : Outcome A) (S : Handler -> Prop) :
  sat o (fun _ h => S h) (fun _ h => S h) -> S (final o).
Proof. destruct o; cbn; auto. Qed.

(** ** The header buffer *)










Lemma send_response_only_eq code message h v :
  request_version h = Some v ->
  server.send_response_only code message h
  = Return tt (put v (status_line code
                        (match message with Some m => m | None => phrase code end)) h).
Proof.
  intros Hv. unfold server.send_response_only, server.get_request_version, put, put_buf,
    is09, status_line, bind, gets, when.
  rewrite Hv. cbn. destruct (v =? "HTTP/0.9"); cbn.
  - destruct h; reflexivity.
  - unfold server.ensure_headers_buffer, server.headers_buffer_append, bind, gets, modify.
    destruct (_headers_buffer h) eqn:Hb; cbn; rewrite ?Hb; reflexivity.
Qed.


Lemma send_header_eq keyword value h v :
  request_version h = Some v ->
  plain (keyword, value) ->
  server.send_header keyword value h = Return tt (put v (header_line (keyword, value)) h).
Proof.
  unfold plain. cbn [fst]. intros Hv Hk.
  unfold server.send_header, server.get_request_version, put, put_buf,
    is09, header_line, bind, gets, when.
  rewrite Hv, Hk. cbn. destruct (v =? "HTTP/0.9"); cbn.
  - destruct h; reflexivity.
  - unfold server.ensure_headers_buffer, server.headers_buffer_append, bind, gets, modify.
    destruct (_headers_buffer h) eqn:Hb; cbn; rewrite ?Hb; reflexivity.
Qed.

Lemma send_header_close_eq h v :
  request_version h = Some v ->
  server.send_header "Connection" "close" h
  = Return tt (set_close_connection true (put v (header_line ("Connection", "close")) h)).
Proof.
  intros Hv. unfold server.send_header, server.get_request_version, put, put_buf,
    is09, header_line, bind, gets, when.
  rewrite Hv.
  change (Str.lower "Connection" =? "connection") with true.
  change (Str.lower "close" =? "close") with true.
  cbn. destruct (v =? "HTTP/0.9"); cbn.
  - reflexivity.
  - unfold server.ensure_headers_buffer, server.headers_buffer_append, bind, gets, modify.
    destruct (_headers_buffer h) eqn:Hb; cbn; rewrite ?Hb; reflexivity.
Qed.

Lemma base_end_headers_eq h v ln b :
  request_version h = Some v ->
  _headers_buffer h = put_buf (is09 v) ln b ->
  server.end_headers h = Return tt (flush v [] h).
Proof.
  intros Hv Hb. unfold server.end_headers, server.get_request_version, flush, flush_buf,
    flush_wfile, bind, gets, when.
  rewrite Hv. cbn. unfold is09 in *.
  destruct (v =? "HTTP/0.9"); cbn; [destruct h; reflexivity|].
  unfold server.headers_buffer_append, server.flush_headers, server.wfile_write,
    bind, gets, modify.
  rewrite Hb. cbn. reflexivity.
Qed.

Lemma flush_put v ln extra h :
  flush v extra (put v ln h) = flush v (ln :: extra) h.
Proof.
  unfold flush, flush_buf, flush_wfile, put, put_buf.
  destruct (is09 v); cbn; [reflexivity|].
  rewrite <- app_assoc. reflexivity.
Qed.

(** ** Handler classes that send fields before ending the headers *)




Lemma NoCacheHandler_with_fields : NoCacheHandler_class = with_fields no_cache_fields.
Proof. reflexivity. Qed.

Lemma SimpleHTTPRequestHandler_with_fields : SimpleHTTPRequestHandler = with_fields [].
Proof. reflexivity. Qed.

Lemma no_cache_fields_plain : Forall plain no_cache_fields.
Proof. repeat constructor. Qed.

Lemma with_fields_end_headers fields :
  Forall plain fields ->
  forall h v ln b,
    request_version h = Some v ->
    _headers_buffer h = put_buf (is09 v) ln b ->
    cls_end_headers (with_fields fields) h
    = Return tt (flush v (map header_line fields) h).
Proof.
  cbn [cls_end_headers with_fields].
  induction 1 as [|[k x] fields Hk _ IH]; intros h v ln b Hv Hb.
  - exact (base_end_headers_eq h v ln b Hv Hb).
  - change (send_fields ((k, x) :: fields) server.end_headers)
      with (server.send_header k x ;; send_fields fields server.end_headers).
    unfold bind. rewrite (send_header_eq k x h v Hv Hk). cbn [map].
    rewrite (IH (put v (header_line (k, x)) h) v (header_line (k, x)) (_headers_buffer h));
      [ | destruct h; exact Hv | reflexivity ].
    rewrite flush_put. reflexivity.
Qed.


(** ** Stepping through a method body *)

Arguments set_proc x h /.
Arguments set_rfile x h /.
Arguments set_unread x h /.
Arguments set_wfile x h /.
Arguments set_raw_requestline x h /.
Arguments set_requestline x h /.
Arguments set_request_version x h /.
Arguments set_command x h /.
Arguments set_path x h /.
Arguments set_headers x h /.
Arguments set_close_connection x h /.
Arguments set_headers_buffer x h /.
Arguments put v ln h /.
Arguments flush v extra h /.
Arguments server.error_message_format : simpl never.
Arguments server.translate_path : simpl never.
Arguments server.parse_version : simpl never.
Arguments server.headers_get : simpl never.
Arguments server.tuple_ge : simpl never.
Arguments posixpath.join : simpl never.
Arguments String.length : simpl never.
Arguments String.append : simpl never.
Arguments Str.rstrip : simpl never.
Arguments Str.split_ws : simpl never.
Arguments Str.of_Z : simpl never.

Lemma protocol_below_11 : String.leb "HTTP/1.1" server.protocol_version = false.
Proof. reflexivity. Qed.

Lemma getattr_do_eq P fs self c :
  server.getattr_do P fs self ("do_" ++ c)
  = if c =? "GET" then Some (server.do_GET P fs self)
    else if c =? "HEAD" then Some (server.do_HEAD P fs self)
    else None.
Proof. reflexivity. Qed.

Ltac norm_state h :=
  eval cbn [proc client_address clock rfile unread wfile directory raw_requestline
            requestline request_version command path headers close_connection
            _headers_buffer
            set_proc set_rfile set_unread set_wfile set_raw_requestline set_requestline
            set_request_version set_command set_path set_headers set_close_connection
            set_headers_buffer put flush nth last] in h.

Ltac atom c :=
  lazymatch c with
  | negb ?x => atom x
  | andb ?x _ => atom x
  | orb ?x _ => atom x
  | match ?x with _ => _ end => atom x
  | ?x => x
  end.

Ltac has_var c := match c with context [?v] => is_var v end.

Ltac head_of t := lazymatch t with ?f _ => head_of f | _ => t end.

Ltac eval_test c :=
  let c := eval cbv [server.isdir server.isfile server.headers_contains] in c in
  eval cbn in c.

(** A case is taken from a hypothesis when the same test has been met
    before, and split otherwise. *)
Ltac decide_on x :=
  first [ lazymatch goal with H : x = _ |- _ => rewrite H end
        | destruct x eqn:? ].

(** The steps that use what is known of a method. *)
Ltac wp_known :=
  lazymatch goal with
  | |- sat (bind (bind _ _) _ _) _ _ => apply sat_assoc
  | |- sat (bind (ret ?a) ?k ?h) ?Q ?E => change (sat (k a h) Q E)
  | |- sat (bind (raise ?e) ?k ?h) ?Q ?E => change (sat (raise e h) Q E)
  | |- sat (bind (gets ?f) ?k ?h) ?Q ?E =>
      let v := norm_state constr:(f h) in
      change (sat (k v h) Q E)
  | |- sat (bind (modify ?f) ?k ?h) ?Q ?E => change (sat (k tt (f h)) Q E)
  | |- sat (bind (when ?c ?m) ?k ?h) ?Q ?E =>
      change (sat (bind (if c then m else ret tt) k h) Q E)
  | |- sat (bind (if _ then modify (set_close_connection true) else _) _ _) _ _ =>
      eapply sat_if_same;
      [ reflexivity
      | rewrite ?protocol_below_11, ?Bool.andb_false_r; reflexivity
      | ]
  | |- sat (bind (match server.getattr_do ?P ?fs ?cls ("do_" ++ ?c) with _ => _ end) _ _) _ _ =>
      rewrite (getattr_do_eq P fs cls c)
  | |- sat (bind (cls_end_headers (with_fields _)) _ _) _ _ =>
      eapply sat_eq;
      [ eapply with_fields_end_headers; [ eassumption | reflexivity | reflexivity ] | ]
  | |- sat (bind (server.send_header "Connection" "close") _ _) _ _ =>
      eapply sat_eq; [ apply send_header_close_eq; reflexivity | ]
  | |- sat (bind (server.send_header _ _) _ _) _ _ =>
      eapply sat_eq; [ apply send_header_eq; [ reflexivity | vm_compute; reflexivity ] | ]
  | |- sat (bind (server.send_response_only _ _) _ _) _ _ =>
      eapply sat_eq; [ apply send_response_only_eq; reflexivity | ]
  | |- sat (bind (server.handle_loop _ _ _ (S _)) _ _) _ _ =>
      cbn [server.handle_loop]
  end.

(** The steps that follow the shape of the code; [stop f] fails on a method
    [f] that is not to be entered. *)
Ltac wp_shape stop :=
  lazymatch goal with
  | |- sat (bind _ _ _) _ _ =>
      lazymatch goal with
      | |- context [Datatypes.length (Str.split_ws ?t)] =>
          first [ lazymatch goal with H : Str.split_ws t = _ |- _ => rewrite H end
                | destruct (Str.split_ws t) as [|? [|? [|? [|? ?]]]] eqn:? ]
      | |- sat (bind (match ?c with true => ?m1 | false => ?m2 end) ?k ?h) ?Q ?E =>
          tryif has_var c
          then (let c' := eval_test c in
                change (sat (bind (if c' then m1 else m2) k h) Q E);
                rewrite ?Bool.andb_false_r;
                lazymatch goal with
                | |- sat (bind (if true then _ else _) _ _) _ _ => idtac
                | |- sat (bind (if false then _ else _) _ _) _ _ => idtac
                | |- sat (bind (if ?c'' then _ else _) _ _) _ _ =>
                    let x := atom c'' in decide_on x; cbn [negb andb orb]
                | |- _ => idtac
                end)
          else (let c' := eval vm_compute in c in
                change (sat (bind (if c' then m1 else m2) k h) Q E));
          cbv iota
      | |- sat (bind (let _ := _ in _) _ _) _ _ => cbv zeta
      | |- sat (bind (let '(_, _) := ?x in _) _ _) _ _ => decide_on x
      | |- sat (bind (match ?x with _ => _ end) _ _) _ _ =>
          first [ progress (cbv iota)
                | let x' := eval_test x in progress (change x with x')
                | let y := atom x in decide_on y ]
      | |- sat (bind ?m _ _) _ _ =>
          let f := head_of m in
          stop f; unfold f;
          rewrite ?protocol_below_11, ?Bool.andb_false_r
      end
  end.

Ltac tidy :=
  lazymatch goal with
  | |- sat (?t ?h) ?Q ?E =>
      let t' := eval cbv beta in t in
      let h' := norm_state h in
      change (sat (t' h') Q E)
  | |- _ => idtac
  end.

(** One step on a goal [sat (bind m k h) Q]. *)
Ltac wp_step stop := first [ wp_known | wp_shape stop ]; tidy.

Ltac enter_all f := idtac.

Ltac not_send_head f :=
  lazymatch f with
  | server.send_head => fail
  | _ => idtac
  end.

(** The leaves: what is to hold of the return or of the raise. *)
Ltac leaves := cbv beta delta [sat sat2 ret raise never] iota.

(** Run a method body to its leaves. *)
Ltac wp := apply sat_last; repeat wp_step enter_all; leaves.

(** ** Stepping through two runs side by side *)

Lemma sat2_first {A B} (o1 : Outcome A) (o2 : Outcome B) R X :
  sat o1 (fun a1 h1 => sat2 (Return a1 h1) o2 R X)
         (fun e1 h1 => sat2 (Raise e1 h1) o2 R X)
  <-> sat2 o1 o2 R X.
Proof. unfold sat2, sat. destruct o1, o2; tauto. Qed.

Lemma sat2_second {A B} (o1 : Outcome A) (o2 : Outcome B) R X :
  sat o2 (fun a2 h2 => sat2 o1 (Return a2 h2) R X)
         (fun e2 h2 => sat2 o1 (Raise e2 h2) R X)
  <-> sat2 o1 o2 R X.
Proof. unfold sat2, sat. destruct o1, o2; tauto. Qed.

Lemma sat2_last {A B} (m1 : M A) (m2 : M B) h1 h2 R X :
  sat2 (bind m1 ret h1) (bind m2 ret h2) R X -> sat2 (m1 h1) (m2 h2) R X.
Proof.
  unfold sat2, bind, ret. destruct (m1 h1), (m2 h2); auto.
Qed.

(** A step of the first run, and of the second, of a goal [sat2 o1 o2 R X]. *)
Ltac first_run step :=
  lazymatch goal with
  | |- sat2 ?o1 ?o2 ?R ?X => apply (proj1 (sat2_first o1 o2 R X))
  end;
  step;
  lazymatch goal with
  | |- sat ?o1 (fun a1 h1 => sat2 (Return a1 h1) ?o2 ?R ?X) _ =>
      apply (proj2 (sat2_first o1 o2 R X))
  end.

Ltac second_run step :=
  lazymatch goal with
  | |- sat2 ?o1 ?o2 ?R ?X => apply (proj1 (sat2_second o1 o2 R X))
  end;
  step;
  lazymatch goal with
  | |- sat ?o2 (fun a2 h2 => sat2 ?o1 (Return a2 h2) ?R ?X) _ =>
      apply (proj2 (sat2_second o1 o2 R X))
  end.

(** One step of each run, or of the one that can still move. *)
Ltac wp2_step stop :=
  first [ first_run ltac:(wp_step stop); try (second_run ltac:(wp_step stop))
        | second_run ltac:(wp_step stop) ].

Ltac wp2 stop := apply sat2_last; repeat wp2_step stop.


(** ** What the handler leaves behind *)



Lemma extends_refl p : extends p p.
Proof. split; [reflexivity|]. exists []. rewrite app_nil_r. auto. Qed.

Lemma extends_emit p p' text :
  extends p p' -> extends p (emit (EvStderr text) p').
Proof.
  intros [Hc (l & Hl & Hf)]. split; [exact Hc|].
  exists (l ++ [EvStderr text])%list. cbn. rewrite Hl, app_assoc. split; [reflexivity|].
  apply Forall_app. split; [exact Hf | repeat constructor].
Qed.

Lemma extends_trans p p' p'' : extends p p' -> extends p' p'' -> extends p p''.
Proof.
  intros [Hc (l & Hl & Hf)] [Hc' (l' & Hl' & Hf')]. split; [congruence|].
  exists (l ++ l')%list. rewrite Hl', Hl, app_assoc. split; [reflexivity|].
  apply Forall_app. auto.
Qed.

Lemma extends_stdout p p' : extends p p' -> stdout_of p' = stdout_of p.
Proof.
  intros [_ (l & Hl & Hf)]. unfold stdout_of. rewrite Hl, flat_map_app.
  clear Hl.
  replace (flat_map _ l) with (@nil string); [apply app_nil_r|].
  induction Hf as [|e l He _ IH]; [reflexivity|].
  destruct e; cbn in He; try contradiction. exact IH.
Qed.



Lemma translate_path_inside P directory path :
  inside directory (server.translate_path P directory path).
Proof.
  unfold server.translate_path.
  set (words := filter _ _). clearbody words.
  assert (H : forall p, inside directory p ->
                        inside directory (fold_left server.translate_step words p)).
  { induction words as [|w words IH]; intros p Hp; cbn [fold_left]; [exact Hp|].
    apply IH. unfold server.translate_step.
    destruct (negb (posixpath.dirname w =? "") || (w =? ".") || (w =? "..")) eqn:E;
      [exact Hp|].
    apply inside_join; [exact Hp|]. unfold simple. rewrite E. reflexivity. }
  destruct (Str.endswith _ "/"); [apply inside_slash|]; apply H; constructor.
Qed.



Arguments put_buf : simpl never.
Arguments flush_buf : simpl never.
Arguments flush_wfile : simpl never.

(** The leaves of a comparison: name the writes and where they come from. *)
Ltac solve_extends :=
  repeat apply extends_emit; first [ apply extends_refl | assumption ].

Ltac solve_source :=
  first
    [ left; do 3 eexists; reflexivity
    | right; left; do 2 eexists; split;
      [ | eassumption ];
      first [ apply translate_path_inside
            | apply inside_join; [ apply translate_path_inside | reflexivity ] ]
    | right; right; do 3 eexists; split; [ | split; [ eassumption | eassumption ] ];
      first [ apply translate_path_inside
            | apply inside_join; [ apply translate_path_inside | reflexivity ] ] ].

Ltac solve_reply :=
  unfold reply;
  lazymatch goal with
  | |- context [is09 ?v] =>
      tryif has_var v then destruct (is09 v)
      else (let b := eval vm_compute in (is09 v) in
            change (is09 v) with b; cbv iota);
      cbn [flush_wfile put_buf lines_of app];
      first
        [ split; reflexivity
        | do 2 eexists; split; [ reflexivity | split; [ reflexivity | ] ];
          do 3 eexists; split; reflexivity ]
  end.

Lemma sat2_bind {A B A' B'} (m1 : M A) (k1 : A -> M B) (m2 : M A') (k2 : A' -> M B')
      h1 h2 (R1 : A -> Handler -> A' -> Handler -> Prop)
      (X1 : Exception -> Handler -> Exception -> Handler -> Prop)
      (R : B -> Handler -> B' -> Handler -> Prop)
      (X : Exception -> Handler -> Exception -> Handler -> Prop) :
  sat2 (m1 h1) (m2 h2) R1 X1 ->
  (forall a1 g1 a2 g2, R1 a1 g1 a2 g2 -> sat2 (k1 a1 g1) (k2 a2 g2) R X) ->
  (forall x1 g1 x2 g2, X1 x1 g1 x2 g2 -> X x1 g1 x2 g2) ->
  sat2 (bind m1 k1 h1) (bind m2 k2 h2) R X.
Proof.
  unfold sat2, bind. intros H1 H2 H3.
  destruct (m1 h1) as [a1 g1|x1 g1], (m2 h2) as [a2 g2|x2 g2]; try contradiction.
  - exact (H2 _ _ _ _ H1).
  - exact (H3 _ _ _ _ H1).
Qed.

(** Use a comparison of two calls already made, at the point where both runs
    are about to make them: the returns are left to compare, and then the
    raises. *)
Ltac cut_with lemma :=
  lazymatch goal with
  | |- sat2 (bind ?m1 ?k1 ?h1) (bind ?m2 ?k2 ?h2) ?R ?X =>
      refine (sat2_bind m1 k1 m2 k2 h1 h2 _ _ R X _ _ _); [ eapply lemma | | ]
  end.

Ltac solve_cause :=
  first
    [ left; eexists; split; [ | eassumption ];
      first [ assumption
            | apply translate_path_inside
            | apply inside_join; [ apply translate_path_inside | reflexivity ] ]
    | right; left; eexists; eassumption
    | right; right; do 3 eexists; split; [ | split; [ eassumption | eassumption ] ];
      first [ apply translate_path_inside
            | apply inside_join; [ apply translate_path_inside | reflexivity ] ] ].

(** The leaves at which both runs have raised. *)
Ltac solve_head_failed :=
  lazymatch goal with
  | |- ?g =>
      let f := head_of g in
      lazymatch f with
      | head_failed =>
          unfold head_failed, in_flight;
          split; [ reflexivity | split; [ solve_cause | split; reflexivity ] ]
      end
  end.

Lemma send_head_file_related P fs root e1 e2 clk1 clk2 q1 q2 ca1 ca2
      rf ur raw rl v c pth hs p :
  Forall plain e1 -> Forall plain e2 -> inside root p ->
  sat2 (server.send_head_file P fs (with_fields e1) p
          (in_flight root q1 ca1 clk1 rf ur raw rl v c pth hs))
       (server.send_head_file P fs (with_fields e2) p
          (in_flight root q2 ca2 clk2 rf ur raw rl v c pth hs))
       (head_sent P fs root e1 e2 clk1 clk2 q1 q2 ca1 ca2 rf ur raw rl v c pth hs)
       (head_failed P fs root clk1 clk2 q1 q2 ca1 ca2 rf ur raw rl v c pth hs).
Proof.
  intros He1 He2 Hp. unfold in_flight.
  wp2 enter_all.
  all: leaves.
  all: try solve_head_failed.
  all: (split; [reflexivity|]).
  all: do 7 eexists.
  all: (split; [unfold responded; reflexivity|]).
  all: (split; [unfold responded; reflexivity|]).
  all: (split; [solve_extends|]).
  all: (split; [solve_extends|]).
  all: (split; [solve_reply|]).
  all: unfold bodies_ok.
  all: try (left; reflexivity).
  all: try (right; eexists; split; [reflexivity|]).
  all: try (split; [reflexivity|]).
  all: try (left; do 3 eexists; reflexivity).
  all: right; left; do 2 eexists; split; [exact Hp | eassumption].
Qed.

Ltac not_send_head_file f :=
  lazymatch f with
  | server.send_head_file => fail
  | _ => idtac
  end.

Lemma send_head_related P fs root e1 e2 clk1 clk2 q1 q2 ca1 ca2
      rf ur raw rl v c pth hs :
  Forall plain e1 -> Forall plain e2 ->
  sat2 (server.send_head P fs (with_fields e1)
          (in_flight root q1 ca1 clk1 rf ur raw rl v c pth hs))
       (server.send_head P fs (with_fields e2)
          (in_flight root q2 ca2 clk2 rf ur raw rl v c pth hs))
       (head_sent P fs root e1 e2 clk1 clk2 q1 q2 ca1 ca2 rf ur raw rl v c pth hs)
       (head_failed P fs root clk1 clk2 q1 q2 ca1 ca2 rf ur raw rl v c pth hs).
Proof.
  intros He1 He2. unfold in_flight.
  wp2 not_send_head_file.
  all: try (cut_with send_head_file_related;
            [ assumption | assumption
            | first [ apply translate_path_inside
                    | apply inside_join; [ apply translate_path_inside | reflexivity ] ]
            | intros f1 g1 f2 g2 H; exact H
            | intros x1 g1 x2 g2 H; exact H ]).
  all: leaves.
  all: try solve_head_failed.
  all: (split; [reflexivity|]).
  all: do 7 eexists.
  all: (split; [unfold responded; reflexivity|]).
  all: (split; [unfold responded; reflexivity|]).
  all: (split; [solve_extends|]).
  all: (split; [solve_extends|]).
  all: (split; [solve_reply|]).
  all: unfold bodies_ok.
  all: try (left; reflexivity).
  all: try (right; eexists; split; [reflexivity|]).
  all: try (split; [reflexivity|]).
  all: try solve_source.
Qed.

Lemma reply_body P e1 e2 clk1 clk2 v w1 w2 content :
  reply P e1 e2 clk1 clk2 v [] w1 w2 ->
  reply P e1 e2 clk1 clk2 v [Body content] (w1 ++ [Body content]) (w2 ++ [Body content]).
Proof.
  unfold reply. destruct (is09 v).
  - intros [-> ->]. split; reflexivity.
  - intros (ls1 & ls2 & -> & -> & H). exists ls1, ls2. repeat split; auto.
Qed.


Ltac finish_handled :=
  leaves; unfold handled;
  cbn [proc wfile close_connection request_version];
  split; [ solve_extends | ];
  split; [ solve_extends | ];
  split; [ reflexivity | ];
  split; [ reflexivity | ];
  split; [ reflexivity | ].

Lemma handle_related P a1 a2 p1 p2 e1 e2 :
  Forall plain e1 -> Forall plain e2 ->
  cwd p2 = cwd p1 ->
  requests a2 = requests a1 -> files a2 = files a1 ->
  sat2 (socketserver.finish_request P (with_fields e1) p1 a1)
       (socketserver.finish_request P (with_fields e2) p2 a2)
       (fun _ h1 _ h2 =>
          handled P (files a1) (cwd p1) e1 e2 (at_time a1) (at_time a2) p1 p2 h1 h2)
       (failed P (files a1) (cwd p1) p1 p2).
Proof.
  intros He1 He2 Hcwd Hreq Hfiles.
  unfold socketserver.finish_request, socketserver.new_handler.
  rewrite Hcwd, Hreq, Hfiles.
  wp2 not_send_head.
  all: try (cut_with send_head_related;
            [ assumption | assumption
            | intros f1 g1 f2 g2
                (Hf & q1' & q2' & w1 & w2 & b1 & b2 & bodies & -> & -> & Hq1 & Hq2
                 & Hreply & Hbodies);
              subst f2; unfold responded; repeat wp2_step not_send_head
            | intros x1 g1 x2 g2 (Hx & Hcause & -> & ->);
              unfold failed, in_flight; cbn [proc wfile];
              split; [ exact Hx | split; [ exact Hcause | repeat split ] ] ]).
  all: finish_handled.
  all: try (split; reflexivity).
  all: try (eexists; split; [ solve_reply | ]).
  all: try (unfold bodies_ok; left; reflexivity).
  all: try (unfold bodies_ok; right; eexists;
            split; [reflexivity | left; do 3 eexists; reflexivity]).
  all: try lazymatch goal with
           | H : match ?f with Some _ => _ | None => _ end |- _ => is_var f; destruct f
           end.
  all: try (destruct Hbodies as [-> Hsource]).
  all: first
         [ eexists; split;
           [ apply reply_body; eassumption
           | right; eexists; split; [ reflexivity | assumption ] ]
         | eexists; split; [ eassumption | first [ assumption | left; reflexivity ] ] ].
Qed.

(** * The serving loop and the script *)

Lemma reply_same P e clk v bodies w1 w2 :
  reply P e e clk clk v bodies w1 w2 -> w1 = w2.
Proof.
  unfold reply. destruct (is09 v).
  - intros [-> ->]. reflexivity.
  - intros (ls1 & ls2 & -> & -> & code & message & rest & -> & ->). reflexivity.
Qed.

Lemma stderr_serving l : Forall is_stderr l -> Forall is_serving l.
Proof.
  induction 1 as [|e l He _ IH]; constructor; [|exact IH].
  destruct e; cbn in He; try contradiction. exact I.
Qed.

Lemma advances_refl p : advances p p.
Proof. split; [reflexivity|]. exists []. rewrite app_nil_r. auto. Qed.

Lemma advances_trans p p' p'' : advances p p' -> advances p' p'' -> advances p p''.
Proof.
  intros [Hc (l & Hl & Hf)] [Hc' (l' & Hl' & Hf')]. split; [congruence|].
  exists (l ++ l')%list. rewrite Hl', Hl, app_assoc. split; [reflexivity|].
  apply Forall_app. auto.
Qed.

Lemma extends_advances p p' : extends p p' -> advances p p'.
Proof.
  intros [Hc (l & Hl & Hf)]. split; [exact Hc|].
  exists l. split; [exact Hl | exact (stderr_serving l Hf)].
Qed.

Lemma advances_emit e p : is_serving e -> advances p (emit e p).
Proof.
  intros He. split; [reflexivity|]. exists [e]. split; [reflexivity|].
  repeat constructor. exact He.
Qed.

(** Two runs of one connection, as equations: both return, or both raise
    the same exception before anything is written or logged. *)
Lemma finish_request_related P a1 a2 p1 p2 e1 e2 :
  Forall plain e1 -> Forall plain e2 ->
  cwd p2 = cwd p1 ->
  requests a2 = requests a1 -> files a2 = files a1 ->
  (exists h1 h2,
      socketserver.finish_request P (with_fields e1) p1 a1 = Return tt h1
      /\ socketserver.finish_request P (with_fields e2) p2 a2 = Return tt h2
      /\ handled P (files a1) (cwd p1) e1 e2 (at_time a1) (at_time a2) p1 p2 h1 h2)
  \/ (exists x h1 h2,
         socketserver.finish_request P (with_fields e1) p1 a1 = Raise x h1
         /\ socketserver.finish_request P (with_fields e2) p2 a2 = Raise x h2
         /\ cause P (files a1) (cwd p1) x
         /\ proc h1 = p1 /\ proc h2 = p2 /\ wfile h1 = [] /\ wfile h2 = []).
Proof.
  intros He1 He2 Hc Hr Hf.
  pose proof (handle_related P a1 a2 p1 p2 e1 e2 He1 He2 Hc Hr Hf) as H.
  unfold sat2 in H.
  destruct (socketserver.finish_request P (with_fields e1) p1 a1) as [[] h1|x1 h1],
           (socketserver.finish_request P (with_fields e2) p2 a2) as [[] h2|x2 h2];
    try contradiction.
  - left. eauto.
  - right. destruct H as (<- & Hcause & H1 & H2 & H3 & H4).
    exists x1, h1, h2. repeat split; assumption.
Qed.

Lemma handled_same_writes P fs root e clk p1 p2 h1 h2 :
  handled P fs root e e clk clk p1 p2 h1 h2 -> wfile h1 = wfile h2.
Proof.
  intros (_ & _ & _ & _ & _ & H).
  destruct (request_version h1) as [v|].
  - destruct H as (bodies & H & _). exact (reply_same _ _ _ _ _ _ _ H).
  - destruct H as [-> ->]. reflexivity.
Qed.

(** What the handler of [serve.py] writes to a connection, and whether it
    raises, does not depend on the client's address nor on what the process
    did before; the handler adds only log lines to the process. *)
Lemma finish_request_answer P p a :
  let o := socketserver.finish_request P NoCacheHandler_class p a in
  extends p (proc (final o))
  /\ wfile (final o) = answer P (cwd p) a
  /\ raised o
     = raised (socketserver.finish_request P NoCacheHandler_class
                 {| cwd := cwd p; events := [] |} a).
Proof.
  cbv zeta. unfold answer.
  change NoCacheHandler_class with (with_fields no_cache_fields).
  destruct (finish_request_related P a a p {| cwd := cwd p; events := [] |}
              no_cache_fields no_cache_fields no_cache_fields_plain no_cache_fields_plain
              eq_refl eq_refl eq_refl)
    as [(h1 & h2 & -> & -> & H)|(x & h1 & h2 & -> & -> & _ & H1 & _ & H3 & H4)];
    cbn [final raised].
  - split; [exact (proj1 H)|]. split; [|reflexivity].
    exact (handled_same_writes _ _ _ _ _ _ _ _ _ H).
  - split; [rewrite H1; apply extends_refl|]. split; [congruence | reflexivity].
Qed.

Lemma answer_same P root a1 a2 :
  requests a2 = requests a1 -> at_time a2 = at_time a1 -> files a2 = files a1 ->
  answer P root a1 = answer P root a2.
Proof.
  intros Hr Ht Hf. unfold answer.
  change NoCacheHandler_class with (with_fields no_cache_fields).
  destruct (finish_request_related P a1 a2 {| cwd := root; events := [] |}
              {| cwd := root; events := [] |}
              no_cache_fields no_cache_fields no_cache_fields_plain no_cache_fields_plain
              eq_refl Hr Hf)
    as [(h1 & h2 & -> & -> & H)|(x & h1 & h2 & -> & -> & _ & _ & _ & H3 & H4)];
    cbn [final].
  - rewrite Ht in H. exact (handled_same_writes _ _ _ _ _ _ _ _ _ H).
  - congruence.
Qed.

Lemma advances_handle_error a x p : advances p (socketserver.handle_error a x p).
Proof.
  unfold socketserver.handle_error. cbv zeta.
  repeat (eapply advances_trans; [|apply advances_emit; exact I]).
  apply advances_refl.
Qed.

Lemma handle_request_noblock_answer P p a :
  exists p',
    socketserver._handle_request_noblock P NoCacheHandler_class p a
    = (p', answer P (cwd p) a)
    /\ advances p p'.
Proof.
  unfold socketserver._handle_request_noblock.
  destruct (finish_request_answer P (emit (EvAccept (client a)) p) a)
    as (Hext & Hw & _).
  destruct (socketserver.finish_request P NoCacheHandler_class
              (emit (EvAccept (client a)) p) a) as [[] h|x h]; cbn [final] in Hext, Hw.
  all: eexists; split; [rewrite Hw; reflexivity|].
  all: (eapply advances_trans; [apply (advances_emit (EvAccept (client a))); exact I|]).
  all: (eapply advances_trans; [apply extends_advances; exact Hext|]).
  - apply advances_emit. exact I.
  - eapply advances_trans; [apply advances_handle_error|].
    apply advances_emit. exact I.
Qed.

Lemma serve_forever_answers P arrivals :
  forall p, exists p',
    socketserver.serve_forever P NoCacheHandler_class p arrivals
    = (p', map (answer P (cwd p)) arrivals)
    /\ advances p p'.
Proof.
  induction arrivals as [|a rest IH]; intros p; cbn [socketserver.serve_forever map].
  - exists p. split; [reflexivity | apply advances_refl].
  - destruct (handle_request_noblock_answer P p a) as (p1 & -> & H1).
    destruct (IH p1) as (p2 & -> & H2).
    exists p2. split; [|exact (advances_trans _ _ _ H1 H2)].
    rewrite (proj1 H1). reflexivity.
Qed.

(** The run when the address can be bound, and when it cannot. *)
Lemma main_serving env arrivals :
  socket_bind env "" 9091%Z = true ->
  exists l,
    serve.main env arrivals
    = {| status := Serving;
         process := {| cwd := document_root env;
                       events := (startup env ++ EvListen :: l)%list |};
         responses := map (answer (platform env) (document_root env)) arrivals |}
    /\ Forall is_serving l.
Proof.
  intros Hb. unfold serve.main. rewrite Hb. cbv zeta.
  match goal with
  | |- context [socketserver.serve_forever ?P _ ?p arrivals] =>
      destruct (serve_forever_answers P arrivals p) as (p' & -> & Hc & l & Hl & Hf)
  end.
  exists l. split; [|exact Hf].
  destruct p' as [c ev]. cbn in Hc, Hl. subst c ev. reflexivity.
Qed.

Lemma main_terminated env arrivals :
  socket_bind env "" 9091%Z = false ->
  serve.main env arrivals
  = {| status := Terminated;
       process := {| cwd := document_root env;
                     events := (startup env ++ [EvTraceback "OSError"])%list |};
       responses := [] |}.
Proof. intros Hb. unfold serve.main. rewrite Hb. reflexivity. Qed.

(** The loop's events are none of the script's own. *)
Lemma serving_filters l :
  Forall is_serving l ->
  filter is_chdir l = [] /\ filter is_stdout l = [] /\ filter is_bind l = [].
Proof.
  induction 1 as [|e l He _ (IH1 & IH2 & IH3)]; [repeat split|].
  destruct e; cbn in He; try contradiction; cbn; auto.
Qed.

Lemma serving_stdout l : Forall is_serving l -> forall p,
  stdout_of {| cwd := cwd p; events := (events p ++ l)%list |} = stdout_of p.
Proof.
  intros Hf p. unfold stdout_of. cbn [events]. rewrite flat_map_app.
  replace (flat_map _ l) with (@nil string); [apply app_nil_r|].
  induction Hf as [|e l He _ IH]; [reflexivity|].
  destruct e; cbn in He; try contradiction; exact IH.
Qed.

(** ** One connection to the server of [serve.py] *)

(** When the handler returns, it has added only log lines to the process
    and has written either nothing, or a body alone (HTTP/0.9), or a header
    block that ends with the three fields.  When it raises, it is for one of
    the three causes, and nothing has been written or logged. *)
Lemma finish_request_classified P p a :
  match socketserver.finish_request P NoCacheHandler_class p a with
  | Return _ h =>
      extends p (proc h)
      /\ match request_version h with
         | None => wfile h = []
         | Some v => exists bodies,
             reply P no_cache_fields no_cache_fields (at_time a) (at_time a) v bodies
                   (wfile h) (wfile h)
             /\ bodies_ok P (files a) (cwd p) bodies
         end
  | Raise x h => cause P (files a) (cwd p) x /\ proc h = p /\ wfile h = []
  end.
Proof.
  change NoCacheHandler_class with (with_fields no_cache_fields).
  destruct (finish_request_related P a a p p
              no_cache_fields no_cache_fields no_cache_fields_plain no_cache_fields_plain
              eq_refl eq_refl eq_refl)
    as [(h1 & h2 & H1 & H2 & H)|(x & h1 & h2 & H1 & _ & Hc & Hp & _ & Hw & _)];
    rewrite H1.
  - rewrite H1 in H2. injection H2 as <-.
    destruct H as (He & _ & _ & _ & _ & H). split; [exact He|].
    destruct (request_version h1); [exact H | exact (proj1 H)].
  - auto.
Qed.

Lemma bodies_only P fs root bodies : bodies_ok P fs root bodies -> only_body bodies.
Proof. intros [->|(b & -> & _)]; [left | right; exists b]; reflexivity. Qed.

Lemma bodies_sourced P fs root bodies :
  bodies_ok P fs root bodies -> sourced P fs root bodies.
Proof.
  intros [->|(b & -> & Hb)]; [constructor|]. constructor; [exact Hb | constructor].
Qed.

Lemma reply_shape P e clk v bodies w :
  reply P e e clk clk v bodies w w ->
  if is09 v then w = bodies
  else exists lines, w = HeaderBlock (lines ++ map header_line e ++ [CRLF]) :: bodies.
Proof.
  unfold reply. destruct (is09 v).
  - intros [-> _]. reflexivity.
  - intros (ls1 & _ & -> & _). exists ls1. reflexivity.
Qed.

Lemma finish_request_shape P p a :
  match socketserver.finish_request P NoCacheHandler_class p a with
  | Return _ h =>
      match request_version h with
      | None => wfile h = []
      | Some v => if v =? "HTTP/0.9" then only_body (wfile h)
                  else with_no_cache_headers (wfile h)
      end
      /\ sourced P (files a) (cwd p) (wfile h)
  | Raise x h => cause P (files a) (cwd p) x /\ proc h = p /\ wfile h = []
  end.
Proof.
  pose proof (finish_request_classified P p a) as H.
  destruct (socketserver.finish_request P NoCacheHandler_class p a) as [[] h|x h];
    [|exact H].
  destruct H as (_ & H).
  destruct (request_version h) as [v|].
  - destruct H as (bodies & Hr & Hb). apply reply_shape in Hr.
    unfold is09 in Hr. destruct (v =? "HTTP/0.9").
    + subst bodies. split; [exact (bodies_only _ _ _ _ Hb) | exact (bodies_sourced _ _ _ _ Hb)].
    + destruct Hr as (lines & ->). split.
      * exists (lines ++ map header_line no_cache_fields ++ [CRLF])%list, bodies.
        split; [reflexivity|]. split; [exists lines; reflexivity|].
        exact (bodies_only _ _ _ _ Hb).
      * constructor; [exact I | exact (bodies_sourced _ _ _ _ Hb)].
  - rewrite H. split; [reflexivity | constructor].
Qed.


(** The responses of a run are the answers to its connections. *)
Lemma main_responses env arrivals :
  responses (serve.main env arrivals)
  = if socket_bind env "" 9091%Z
    then map (answer (platform env) (document_root env)) arrivals
    else [].
Proof.
  destruct (socket_bind env "" 9091%Z) eqn:Hb.
  - destruct (main_serving env arrivals Hb) as (l & -> & _). reflexivity.
  - rewrite (main_terminated env arrivals Hb). reflexivity.
Qed.

(** The events of a run: the start of the script, then the loop or the
    traceback. *)
Lemma main_events env arrivals :
  cwd (process (serve.main env arrivals)) = document_root env
  /\ exists rest,
      events (process (serve.main env arrivals)) = (startup env ++ rest)%list
      /\ filter is_chdir rest = [] /\ filter is_stdout rest = []
      /\ filter is_bind rest = [].
Proof.
  destruct (socket_bind env "" 9091%Z) eqn:Hb.
  - destruct (main_serving env arrivals Hb) as (l & -> & Hl).
    split; [reflexivity|]. exists (EvListen :: l). split; [reflexivity|].
    destruct (serving_filters l Hl) as (H1 & H2 & H3). cbn. auto.
  - rewrite (main_terminated env arrivals Hb). split; [reflexivity|].
    exists [EvTraceback "OSError"]. repeat split.
Qed.

(** ** A request for something that is not there *)

Lemma finish_request_not_found P p a r rest method target version base number fields :
  requests a = r :: rest ->
  (Z.of_nat (String.length (line r)) <= 65536)%Z ->
  Str.split_ws (Str.rstrip Str.is_crlf (line r)) = [method; target; version] ->
  method = "GET" \/ method = "HEAD" ->
  server.parse_version version = Some (base, number) ->
  server.tuple_ge number (2, 0)%Z = false ->
  is09 version = false ->
  header_input r = Headers fields ->
  files a (server.translate_path P (cwd p) (request_path target)) = None ->
  sat (socketserver.finish_request P NoCacheHandler_class p a)
      (fun _ h => wfile h = not_found_response P (at_time a) method) never.
Proof.
  intros Hreq Hlen Hwords Hmethod Hversion Hbelow H09 Hfields Hnone.
  assert (Hlong : (65536 <? Z.of_nat (String.length (line r)))%Z = false)
    by (apply Z.ltb_ge; exact Hlen).
  assert (Hline : (line r =? "") = false).
  { destruct (line r =? "") eqn:E; [|reflexivity].
    apply String.eqb_eq in E. rewrite E in Hwords. discriminate Hwords. }
  unfold request_path in Hnone.
  destruct (Str.startswith target "//") eqn:Hslashes.
  all: change (Str.startswith target "//") with (prefix "//" target) in Hslashes.
  all: change NoCacheHandler_class with (with_fields no_cache_fields).
  all: unfold socketserver.finish_request, socketserver.new_handler.
  all: rewrite Hreq.
  all: destruct Hmethod; subst method.
  all: pose proof no_cache_fields_plain as Hplain.
  all: apply sat_last; repeat wp_step enter_all.
  all: leaves.
  all: cbn [wfile].
  all: rewrite H09; cbn [flush_wfile put_buf lines_of app]; unfold not_found_response.
  all: reflexivity.
Qed.

Lemma answer_not_found P root a r rest method target version base number fields :
  requests a = r :: rest ->
  (Z.of_nat (String.length (line r)) <= 65536)%Z ->
  Str.split_ws (Str.rstrip Str.is_crlf (line r)) = [method; target; version] ->
  method = "GET" \/ method = "HEAD" ->
  server.parse_version version = Some (base, number) ->
  server.tuple_ge number (2, 0)%Z = false ->
  is09 version = false ->
  header_input r = Headers fields ->
  files a (server.translate_path P root (request_path target)) = None ->
  answer P root a = not_found_response P (at_time a) method.
Proof.
  intros Hreq Hlen Hwords Hmethod Hversion Hbelow H09 Hfields Hnone.
  pose proof (finish_request_not_found P {| cwd := root; events := [] |} a r rest method
                target version base number fields Hreq Hlen Hwords Hmethod Hversion
                Hbelow H09 Hfields Hnone) as H.
  unfold answer. destruct (socketserver.finish_request _ _ _ _); [exact H | contradiction].
Qed.

Lemma not_found_response_status P t method :
  status_of (not_found_response P t method) = Some "404".
Proof. reflexivity. Qed.

Lemma not_found_response_no_cache P t method :
  with_no_cache_headers (not_found_response P t method).
Proof.
  unfold not_found_response. do 2 eexists. split; [reflexivity|].
  split; [eexists; reflexivity|].
  destruct (method =? "HEAD"); [left | right; eexists]; reflexivity.
Qed.

(** * Paths *)

Lemma prefix_app a b : String.prefix a (a ++ b) = true.
Proof.
  induction a as [|c a IH]; [destruct b; reflexivity|].
  change (String c a ++ b) with (String c (a ++ b)). cbn [prefix].
  destruct (ascii_dec c c); [exact IH | congruence].
Qed.

Lemma prefix_app_r r p x : String.prefix r p = true -> String.prefix r (p ++ x) = true.
Proof.
  revert p. induction r as [|c r IH]; intros p H; [destruct (p ++ x); reflexivity|].
  destruct p as [|d p]; [discriminate H|].
  change (String d p ++ x) with (String d (p ++ x)). cbn [prefix] in H |- *.
  destruct (ascii_dec c d); [apply IH; exact H | discriminate H].
Qed.

Lemma rstrip_cons p c s :
  Str.rstrip p (String c s)
  = match Str.rstrip p s with
    | EmptyString => if p c then EmptyString else String c EmptyString
    | String d r => String c (String d r)
    end.
Proof. cbv [Str.rstrip]. fold (Str.rstrip p s). destruct (Str.rstrip p s); reflexivity. Qed.

Lemma upto_last_slash_slash s :
  exists t, posixpath.upto_last_slash (String "/" s) = String "/" t.
Proof.
  cbn. destruct (posixpath.upto_last_slash s); eauto.
Qed.

(** The directory part of a path that starts with a slash starts with a
    slash. *)
Lemma dirname_absolute s : exists t, posixpath.dirname (String "/" s) = String "/" t.
Proof.
  unfold posixpath.dirname.
  destruct (upto_last_slash_slash s) as (t & ->).
  destruct (negb (String "/" t =? "") && negb (posixpath.all_slashes (String "/" t)))
    eqn:Hb; [|eauto].
  rewrite rstrip_cons.
  destruct (Str.rstrip Str.is_slash t) as [|d r] eqn:E; [|eauto].
  exfalso. revert Hb. rewrite Bool.andb_true_iff, !Bool.negb_true_iff.
  intros [_ Hb]. cbn in Hb.
  assert (Hall : forall u, Str.rstrip Str.is_slash u = "" -> posixpath.all_slashes u = true).
  { clear. induction u as [|c u IH]; [reflexivity|]. rewrite rstrip_cons.
    destruct (Str.rstrip Str.is_slash u); [|discriminate].
    cbn. destruct (Str.is_slash c); [intros _; apply IH; reflexivity | discriminate]. }
  rewrite (Hall t E) in Hb. discriminate Hb.
Qed.

Lemma startswith_slash c w :
  Str.startswith (String c w) "/" = if ascii_dec "/" c then true else false.
Proof.
  unfold Str.startswith. cbn [prefix].
  destruct (ascii_dec "/" c); [destruct w|]; reflexivity.
Qed.

Lemma absolute_inv s : Str.startswith s "/" = true -> exists t, s = String "/" t.
Proof.
  destruct s as [|c w]; [discriminate|]. rewrite startswith_slash.
  destruct (ascii_dec "/" c) as [<-|]; [eauto | discriminate].
Qed.

Lemma simple_not_absolute word : simple word = true -> Str.startswith word "/" = false.
Proof.
  unfold simple. intros H.
  destruct (Str.startswith word "/") eqn:E; [|reflexivity].
  destruct (absolute_inv word E) as (w & ->).
  destruct (dirname_absolute w) as (t & Et). rewrite Et in H. discriminate H.
Qed.

(** A path inside the root starts with the root. *)
Lemma inside_startswith root p : inside root p -> Str.startswith p root = true.
Proof.
  unfold Str.startswith.
  induction 1 as [|p word _ IH Hw|p _ IH].
  - assert (E : root ++ "" = root).
    { clear. induction root as [|c r IH]; [reflexivity|].
      change (String c r ++ "") with (String c (r ++ "")). rewrite IH. reflexivity. }
    rewrite <- E at 2. apply prefix_app.
  - unfold posixpath.join. rewrite (simple_not_absolute word Hw).
    destruct ((p =? "") || Str.endswith p "/"); apply prefix_app_r; exact IH.
  - apply prefix_app_r; exact IH.
Qed.

Lemma normpath_absolute s : exists t, posixpath.normpath (String "/" s) = String "/" t.
Proof.
  unfold posixpath.normpath.
  change (String "/" s =? "") with false. cbv iota.
  rewrite startswith_slash.
  destruct (ascii_dec "/" "/") as [_|n]; [|congruence]. cbv zeta.
  destruct (Str.startswith (String "/" s) "//" && negb (Str.startswith (String "/" s) "///")).
  - match goal with |- context [("//" ++ ?t)] => change ("//" ++ t) with (String "/" (String "/" t)) end.
    cbn [String.eqb]. rewrite Ascii.eqb_refl || idtac. eauto.
  - match goal with |- context [("/" ++ ?t)] => change ("/" ++ t) with (String "/" t) end.
    cbn [String.eqb]. eauto.
Qed.

(** The directory of the script is an absolute path when the interpreter
    was started in one. *)
Lemma script_directory_absolute env :
  posixpath.isabs (getcwd env) = true ->
  posixpath.isabs (serve.script_directory env) = true.
Proof.
  unfold serve.script_directory, posixpath.abspath, posixpath.isabs.
  intros Hcwd.
  assert (H : exists s, (if Str.startswith (__file__ env) "/" then __file__ env
                         else posixpath.join (getcwd env) (__file__ env)) = String "/" s).
  { destruct (Str.startswith (__file__ env) "/") eqn:Hf.
    - exact (absolute_inv _ Hf).
    - unfold posixpath.join. rewrite Hf.
      destruct (absolute_inv _ Hcwd) as (d & ->).
      destruct ((String "/" d =? "") || Str.endswith (String "/" d) "/");
        [exists (d ++ __file__ env) | exists (d ++ "/" ++ __file__ env)]; reflexivity. }
  destruct H as (s & ->).
  destruct (normpath_absolute s) as (t & ->).
  destruct (dirname_absolute t) as (u & ->).
  rewrite startswith_slash. destruct (ascii_dec "/" "/"); congruence.
Qed.

(** ** The loop of [handle] *)

(** The loop ends because the connection is to be closed, whatever fuel is
    left. *)
Lemma handle_loop_closed P fs self fuel h :
  close_connection h = true ->
  server.handle_loop P fs self (S fuel) h = Return tt h.
Proof. intros H. cbn [server.handle_loop]. unfold bind, gets. rewrite H. reflexivity. Qed.

(** * The claims of the specification *)

(** ** C1: the three fields on every response *)



(** ** C2: the three fields come last *)

(** C2, as stated, fails for the response to [GET /index.html]: when
    [end_headers] is reached the request version is HTTP/0.9, the three
    [send_header] calls append nothing, no header block is written, and the
    response is the file alone. *)
Lemma end_headers_appends_nothing_for_simple_request :
  let h := in_flight "/srv/chess" {| cwd := "/srv/chess"; events := [] |}
             ("127.0.0.1", 50000%Z) {| gmtime := noon; localtime := noon |}
             [] (Headers []) ("GET /index.html" ++ CRLF) "GET /index.html"
             "HTTP/0.9" (Some "GET") "/index.html" [] in
  NoCacheHandler.end_headers h = Return tt h
  /\ wfile (final (server.do_GET sample_platform sample_files NoCacheHandler_class h))
     = [Body "<html>chess</html>"].
Proof. split; vm_compute; reflexivity. Qed.

(** C2, amended: [NoCacheHandler.end_headers] needs the request version;
    for HTTP/0.9 it changes nothing, and otherwise it writes one header
    block, made of the lines buffered so far (all that the baseline handler
    has sent for this response), then the three no-cache lines in the order
    Cache-Control, Pragma, Expires, then the blank line, and empties the
    buffer.  Nothing is removed from the buffer: the three fields are added
    to what the baseline sent. *)
Theorem no_cache_fields_are_sent_last h :
  NoCacheHandler.end_headers h
  = match request_version h with
    | None => Raise (AttributeError "request_version") h
    | Some v =>
        if v =? "HTTP/0.9" then Return tt h
        else Return tt
               (set_headers_buffer (Some [])
                  (set_wfile
                     (wfile h ++ [HeaderBlock (lines_of (_headers_buffer h)
                                               ++ no_cache_lines ++ [CRLF])])%list h))
    end.
Proof.
  destruct (request_version h) as [v|] eqn:Hv.
  - change NoCacheHandler.end_headers with (cls_end_headers (with_fields no_cache_fields)).
    cbn [cls_end_headers with_fields send_fields fold_right no_cache_fields fst snd].
    unfold bind.
    rewrite (send_header_eq _ _ h v Hv) by reflexivity.
    rewrite (send_header_eq _ _ _ v) by (try reflexivity; destruct h; exact Hv).
    rewrite (send_header_eq _ _ _ v) by (try reflexivity; destruct h; exact Hv).
    erewrite base_end_headers_eq; [ | destruct h; exact Hv | reflexivity ].
    rewrite !flush_put. unfold flush, flush_buf, flush_wfile, is09.
    destruct (v =? "HTTP/0.9"); [destruct h; reflexivity | reflexivity].
  - unfold NoCacheHandler.end_headers, server.send_header, server.get_request_version,
      bind, gets, raise. rewrite Hv. reflexivity.
Qed.

(** ** C3: status and body are the baseline's *)

(** C3: on every connection, [SimpleHTTPRequestHandler] and the handler of
    [serve.py] end alike.  Either both return: then the status a client
    reads and the body bytes are the same, and either there is no header
    block and the two responses are equal, or the header block of the
    baseline is [lines] and the blank line and that of [serve.py] is the same
    [lines], the three no-cache lines and the blank line, before the same
    body.  Or both raise the same exception, and neither has written
    anything.  One never returns where the other raises. *)
Theorem same_response_as_baseline_but_for_no_cache P p a :
  match socketserver.finish_request P SimpleHTTPRequestHandler p a,
        socketserver.finish_request P NoCacheHandler_class p a with
  | Return _ hb, Return _ hn =>
      status_of (wfile hn) = status_of (wfile hb)
      /\ body_of (wfile hn) = body_of (wfile hb)
      /\ (wfile hn = wfile hb /\ header_lines (wfile hb) = None
          \/ exists lines bodies,
              wfile hb = HeaderBlock (lines ++ [CRLF]) :: bodies
              /\ wfile hn = HeaderBlock (lines ++ no_cache_lines ++ [CRLF]) :: bodies)
  | Raise xb hb, Raise xn hn => xn = xb /\ wfile hb = [] /\ wfile hn = []
  | _, _ => False
  end.
Proof.
  change SimpleHTTPRequestHandler with (with_fields []).
  change NoCacheHandler_class with (with_fields no_cache_fields).
  destruct (finish_request_related P a a p p [] no_cache_fields
              (Forall_nil _) no_cache_fields_plain eq_refl eq_refl eq_refl)
    as [(hb & hn & -> & -> & _ & _ & _ & _ & Hv & H)
       |(x & hb & hn & -> & -> & _ & _ & _ & Hb & Hn)].
  - destruct (request_version hb) as [v|].
    + destruct H as (bodies & Hr & Hbodies). unfold reply in Hr. destruct (is09 v).
      * destruct Hr as [-> ->]. repeat split. left. split; [reflexivity|].
        destruct Hbodies as [->|(b & -> & _)]; reflexivity.
      * destruct Hr as (ls1 & ls2 & -> & -> & code & message & rest & -> & ->).
        repeat split. right. eexists _, bodies. split; reflexivity.
    + destruct H as [-> ->]. repeat split. left. split; reflexivity.
  - repeat split; assumption.
Qed.

(** ** C4: a path that names nothing *)

(** C4, as stated, fails at the request line [GET /missing]: nothing is at
    [/srv/chess/missing], the request is handled as HTTP/0.9, and the
    response is the error page alone, without a status line and without the
    three fields. *)
Lemma missing_file_simple_request_has_no_status :
  sample_files "/srv/chess/missing" = None
  /\ responses (serve.main sample_env [connection "GET /missing" noon])
     = [[Body (error_page NOT_FOUND "File not found")]]
  /\ map status_of (responses (serve.main sample_env [connection "GET /missing" noon]))
     = [None]
  /\ ~ Forall carries_no_cache
         (responses (serve.main sample_env [connection "GET /missing" noon])).
Proof.
  assert (E : responses (serve.main sample_env [connection "GET /missing" noon])
              = [[Body (error_page NOT_FOUND "File not found")]])
    by (vm_compute; reflexivity).
  rewrite E. split; [reflexivity|]. split; [reflexivity|]. split; [reflexivity|].
  intros H. inversion H as [|? ? (lines & Hl & _) _]. discriminate Hl.
Qed.

(** C4, amended: let a connection bring a request line of three words, the
    method GET or HEAD, a version that [parse_request] accepts below 2.0 and
    that is not the text HTTP/0.9, and header fields that parse; let the
    operating system find nothing at the path the target translates to (the
    [OSError] of [open]; a string that cannot be a path, which is [Invalid]
    and makes [open] raise [ValueError], is another case, in which the
    handler sends nothing).  Then in a run of the script that could bind,
    whatever connections come before and after, also connections on which
    the handler raises, the response to this one is that of
    [send_error(404, "File not found")]: status 404, a header block that ends
    with the three no-cache lines, the error page unless the method is HEAD.
    The run is still serving after it, and the other connections get the
    answers they get in a run without it. *)
Theorem missing_file_is_answered_404 env before a after r rest method target version
        base number fields :
  socket_bind env "" 9091%Z = true ->
  requests a = r :: rest ->
  (Z.of_nat (String.length (line r)) <= 65536)%Z ->
  Str.split_ws (Str.rstrip Str.is_crlf (line r)) = [method; target; version] ->
  method = "GET" \/ method = "HEAD" ->
  server.parse_version version = Some (base, number) ->
  server.tuple_ge number (2, 0)%Z = false ->
  (version =? "HTTP/0.9") = false ->
  header_input r = Headers fields ->
  files a (server.translate_path (platform env) (document_root env) (request_path target))
  = None ->
  let run := serve.main env (before ++ a :: after) in
  let others := serve.main env (before ++ after) in
  let response := not_found_response (platform env) (at_time a) method in
  status run = Serving
  /\ responses run
     = (firstn (length before) (responses others)
        ++ response :: skipn (length before) (responses others))%list
  /\ length (responses others) = length (before ++ after)%list
  /\ status_of response = Some "404"
  /\ with_no_cache_headers response.
Proof.
  intros Hbind Hreq Hlen Hwords Hmethod Hversion Hbelow H09 Hfields Hnone run others response.
  subst run others response.
  destruct (main_serving env (before ++ a :: after) Hbind) as (l & -> & _).
  destruct (main_serving env (before ++ after) Hbind) as (l' & -> & _).
  cbn [status responses].
  split; [reflexivity|]. split.
  - rewrite !map_app. cbn [map].
    rewrite <- (length_map (answer (platform env) (document_root env)) before).
    rewrite firstn_app, skipn_app, firstn_all, skipn_all, Nat.sub_diag.
    cbn [firstn skipn]. rewrite app_nil_r. cbn [app].
    rewrite (answer_not_found _ _ a r rest method target version base number fields
               Hreq Hlen Hwords Hmethod Hversion Hbelow H09 Hfields Hnone).
    reflexivity.
  - split; [apply length_map|].
    split; [apply not_found_response_status | apply not_found_response_no_cache].
Qed.

Lemma missing_file_is_answered_404_witness :
  let run := serve.main sample_env
               [connection "GET /index.html HTTP/1.1" noon;
                connection "GET /missing HTTP/1.1" noon;
                connection "HEAD /index.html HTTP/1.0" just_after_noon] in
  let others := serve.main sample_env
                  [connection "GET /index.html HTTP/1.1" noon;
                   connection "HEAD /index.html HTTP/1.0" just_after_noon] in
  let response :=
    not_found_response sample_platform {| gmtime := noon; localtime := noon |} "GET" in
  status run = Serving
  /\ responses run
     = (firstn 1 (responses others) ++ response :: skipn 1 (responses others))%list
  /\ length (responses others) = 2
  /\ status_of response = Some "404"
  /\ with_no_cache_headers response.
Proof.
  apply (missing_file_is_answered_404 sample_env
           [connection "GET /index.html HTTP/1.1" noon]
           (connection "GET /missing HTTP/1.1" noon)
           [connection "HEAD /index.html HTTP/1.0" just_after_noon]
           {| line := "GET /missing HTTP/1.1" ++ CRLF; header_input := Headers [] |}
           [] "GET" "/missing" "HTTP/1.1" "1.1" (1, 1)%Z []).
  - reflexivity.
  - reflexivity.
  - vm_compute. discriminate.
  - vm_compute. reflexivity.
  - left. reflexivity.
  - vm_compute. reflexivity.
  - reflexivity.
  - reflexivity.
  - reflexivity.
  - vm_compute. reflexivity.
Defined.

(** ** C5: paths that try to leave the root *)

(** C5, as stated, fails at the request line
    [GET /../../etc/passwd HTTP/1.1]: the two [..] are dropped, the path
    names the file [etc/passwd] under the root, and the response is 200 with
    that file, not an error status. *)
Lemma traversal_request_is_answered_from_the_root :
  sample_files "/srv/chess/etc/passwd" = Some (File true "a file of the site" noon)
  /\ map status_of
         (responses (serve.main sample_env
                       [connection "GET /../../etc/passwd HTTP/1.1" noon]))
     = [Some "200"]
  /\ map body_of
         (responses (serve.main sample_env
                       [connection "GET /../../etc/passwd HTTP/1.1" noon]))
     = ["a file of the site"].
Proof. repeat split; vm_compute; reflexivity. Qed.

(** C5, amended: whatever the target of a request, the path it translates
    to is made from the root by joining names that are not [..], not [.] and
    hold no slash, so it starts with the root; and every body the handler
    has written when it ends, by a return or by a raise, is an error page,
    what the operating system gives as the content of the file at such a
    path, or the listing of the directory at such a path.  The containment
    is one of path strings: where the bytes of a file at such a path are
    stored is for the operating system, which follows a symbolic link under
    the root.  Whether the status is an error depends on what is at that
    path. *)
Theorem bodies_come_from_inside_the_root P p a :
  (forall target,
      inside (cwd p) (server.translate_path P (cwd p) target)
      /\ Str.startswith (server.translate_path P (cwd p) target) (cwd p) = true)
  /\ sourced P (files a) (cwd p)
       (wfile (final (socketserver.finish_request P NoCacheHandler_class p a))).
Proof.
  split.
  - intros target. split; [apply translate_path_inside|].
    apply inside_startswith, translate_path_inside.
  - pose proof (finish_request_shape P p a) as H.
    destruct (socketserver.finish_request P NoCacheHandler_class p a) as [[] h|x h];
      cbn [final].
    + exact (proj2 H).
    + destruct H as (_ & _ & ->). constructor.
Qed.

(** ** C6: the working directory *)

(** C6: the first thing a run does is [os.chdir] to the directory of the
    entry file, made absolute against the starting directory (an absolute
    path, as the starting directory is one); the bind comes later; no other
    [chdir] happens, however many connections are served; the working
    directory at the end of every run, so at every moment of it, is the one
    that call set; and every connection is answered from that directory. *)
Theorem working_directory_is_set_once env arrivals :
  let run := serve.main env arrivals in
  let d := posixpath.dirname (posixpath.abspath (getcwd env) (__file__ env)) in
  cwd (process run) = os_chdir env d
  /\ (exists rest,
         events (process run)
         = EvChdir d :: EvStdout (serve.banner ++ LF) :: EvBind "" 9091%Z :: rest
         /\ filter is_chdir rest = [])
  /\ responses run
     = (if socket_bind env "" 9091%Z
        then map (answer (platform env) (os_chdir env d)) arrivals
        else [])
  /\ (posixpath.isabs (getcwd env) = true -> posixpath.isabs d = true).
Proof.
  cbv zeta. destruct (main_events env arrivals) as (Hc & rest & He & H1 & _ & _).
  split; [exact Hc|]. split; [|split; [apply main_responses|]].
  - exists rest. split; [exact He | exact H1].
  - apply script_directory_absolute.
Qed.

Lemma working_directory_is_set_once_witness :
  cwd (process (serve.main sample_env [connection "GET /etc/ HTTP/1.0" noon])) = "/srv/chess"
  /\ posixpath.isabs (posixpath.dirname (posixpath.abspath "/srv/chess" "serve.py")) = true.
Proof.
  destruct (working_directory_is_set_once sample_env [connection "GET /etc/ HTTP/1.0" noon])
    as (Hc & _ & _ & Habs).
  split; [exact Hc | exact (Habs eq_refl)].
Defined.

(** ** C7: the line on standard output *)

(** C7: everything a run writes to standard output is the one line
    [Serving at http://localhost:9091 (no-cache)]; it is written once, as the
    second action of the run, before the bind, the listen and every accept,
    which all come after it. *)
Theorem banner_is_printed_once env arrivals :
  let run := serve.main env arrivals in
  stdout_of (process run) = ["Serving at http://localhost:9091 (no-cache)" ++ LF]
  /\ exists rest,
      events (process run)
      = EvChdir (serve.script_directory env)
        :: EvStdout ("Serving at http://localhost:9091 (no-cache)" ++ LF)
        :: EvBind "" 9091%Z :: rest
      /\ filter is_stdout rest = [].
Proof.
  cbv zeta. destruct (main_events env arrivals) as (_ & rest & He & _ & H2 & _).
  split.
  - unfold stdout_of. rewrite He, flat_map_app.
    replace (flat_map _ rest) with (@nil string); [reflexivity|].
    clear He. induction rest as [|e rest IH]; [reflexivity|].
    destruct e; cbn in H2 |- *; try discriminate H2; exact (IH H2).
  - exists rest. split; [exact He | exact H2].
Qed.

(** ** C8: the address, the port and the loop *)

(** C8: a run binds once, to the host [''] (every interface) and the port
    9091; the run is the same whatever the arguments and the environment
    variables; and when the address can be bound, the run listens and is
    still serving after any number of connections, each of which got its
    response. *)
Theorem binds_port_9091_and_serves env arrivals :
  let run := serve.main env arrivals in
  filter is_bind (events (process run)) = [EvBind "" 9091%Z]
  /\ (forall argv' environ',
         serve.main (with_arguments argv' environ' env) arrivals = run)
  /\ (socket_bind env "" 9091%Z = true ->
      status run = Serving
      /\ length (responses run) = length arrivals
      /\ exists rest, events (process run) = (startup env ++ EvListen :: rest)%list).
Proof.
  cbv zeta. split; [|split].
  - destruct (main_events env arrivals) as (_ & rest & -> & _ & _ & H3).
    rewrite filter_app, H3. reflexivity.
  - reflexivity.
  - intros Hb. destruct (main_serving env arrivals Hb) as (l & -> & _).
    cbn [status responses process events]. split; [reflexivity|].
    split; [apply length_map | eauto].
Qed.

Lemma binds_port_9091_and_serves_witness :
  status (serve.main sample_env
            [connection "GET / HTTP/1.0" noon; connection "POST / HTTP/1.0" noon])
  = Serving
  /\ length (responses (serve.main sample_env
                          [connection "GET / HTTP/1.0" noon;
                           connection "POST / HTTP/1.0" noon]))
     = 2.
Proof.
  destruct (binds_port_9091_and_serves sample_env
              [connection "GET / HTTP/1.0" noon; connection "POST / HTTP/1.0" noon])
    as (_ & _ & H).
  destruct (H eq_refl) as (Hs & Hl & _).
  split; [exact Hs | exact Hl].
Defined.

(** ** C9: the same request twice *)

(** C9, as stated, fails for two connections with the request line
    [GET /index.html HTTP/1.1], one second apart, with the file unchanged:
    the bodies are equal, the header blocks are not (the [Date] field tells
    the second). *)
Lemma same_request_a_second_later_differs :
  exists r1 r2,
    responses (serve.main sample_env
                 [connection "GET /index.html HTTP/1.1" noon;
                  connection "GET /index.html HTTP/1.1" just_after_noon])
    = [r1; r2]
    /\ body_of r1 = body_of r2
    /\ header_lines r1 <> header_lines r2.
Proof.
  do 2 eexists. split; [vm_compute; reflexivity|].
  split; [reflexivity | discriminate].
Qed.

(** C9, amended: take two connections that bring the same requests and see
    the same files.  Their answers have the same status and the same body
    bytes, and are either equal or two header blocks that differ in the
    value of the [Date] field only, each the time of its own connection,
    before the same body; when the two connections are handled at the same
    reading of the clock the answers are equal.  Every response of a run is
    the answer to its own connection: it depends on the requests, the files,
    the document root and the clock, not on the client's address nor on what
    the server did before. *)
Theorem same_request_same_response_but_for_date P root a1 a2 env arrivals :
  requests a2 = requests a1 -> files a2 = files a1 ->
  status_of (answer P root a2) = status_of (answer P root a1)
  /\ body_of (answer P root a2) = body_of (answer P root a1)
  /\ (answer P root a2 = answer P root a1
      \/ exists first server rest bodies,
          answer P root a1
          = HeaderBlock (first :: server
                         :: header_line ("Date", server.date_time_string (gmtime (at_time a1)))
                         :: rest) :: bodies
          /\ answer P root a2
             = HeaderBlock (first :: server
                            :: header_line ("Date", server.date_time_string (gmtime (at_time a2)))
                            :: rest) :: bodies)
  /\ (at_time a2 = at_time a1 -> answer P root a2 = answer P root a1)
  /\ responses (serve.main env arrivals)
     = if socket_bind env "" 9091%Z
       then map (answer (platform env) (document_root env)) arrivals
       else [].
Proof.
  intros Hr Hf.
  assert (Hsame : at_time a2 = at_time a1 -> answer P root a2 = answer P root a1)
    by (intros Ht; symmetry; exact (answer_same P root a1 a2 Hr Ht Hf)).
  destruct (finish_request_related P a1 a2 {| cwd := root; events := [] |}
              {| cwd := root; events := [] |}
              no_cache_fields no_cache_fields no_cache_fields_plain no_cache_fields_plain
              eq_refl Hr Hf)
    as [(h1 & h2 & H1 & H2 & _ & _ & _ & _ & Hv & H)
       |(x & h1 & h2 & H1 & H2 & _ & _ & _ & Hw1 & Hw2)].
  all: change (with_fields no_cache_fields) with NoCacheHandler_class in *.
  all: unfold answer in *; rewrite H1, H2 in *; cbn [final] in *.
  all: repeat match goal with |- _ /\ _ => split end;
    [ | | | exact Hsame | apply main_responses ].
  all: try (rewrite Hw1, Hw2; first [ reflexivity | left; reflexivity ]).
  all: destruct (request_version h1) as [v|];
    [ destruct H as (bodies & Hrep & _); unfold reply in Hrep; destruct (is09 v);
      [ destruct Hrep as [-> ->]
      | destruct Hrep as (ls1 & ls2 & -> & -> & code & message & rest & -> & ->) ]
    | destruct H as [-> ->] ].
  all: try reflexivity.
  all: try (left; reflexivity).
  right. eexists _, _, _, bodies. split; reflexivity.
Qed.

Lemma same_request_same_response_but_for_date_witness :
  let a1 := connection "GET /index.html HTTP/1.1" noon in
  let a2 := connection "GET /index.html HTTP/1.1" just_after_noon in
  status_of (answer sample_platform "/srv/chess" a2)
  = status_of (answer sample_platform "/srv/chess" a1)
  /\ body_of (answer sample_platform "/srv/chess" a2)
     = body_of (answer sample_platform "/srv/chess" a1).
Proof.
  cbv zeta.
  destruct (same_request_same_response_but_for_date sample_platform "/srv/chess"
              (connection "GET /index.html HTTP/1.1" noon)
              (connection "GET /index.html HTTP/1.1" just_after_noon)
              sample_env [] eq_refl eq_refl) as (H1 & H2 & _).
  split; [exact H1 | exact H2].
Defined.

(** ** C10: the line is printed before the bind *)

(** C10: in every run the line on standard output is written before the one
    attempt to bind; and when the bind fails, the run ends there with a
    traceback, the line being all of its standard output, and no connection
    is answered. *)
Theorem banner_precedes_bind env arrivals :
  let run := serve.main env arrivals in
  (exists before after,
      events (process run) = (before ++ EvBind "" 9091%Z :: after)%list
      /\ stdout_of {| cwd := cwd (process run); events := before |}
         = [serve.banner ++ LF]
      /\ filter is_bind before = [] /\ filter is_bind after = []
      /\ filter is_stdout after = [])
  /\ (socket_bind env "" 9091%Z = false ->
      status run = Terminated
      /\ events (process run)
         = [EvChdir (serve.script_directory env); EvStdout (serve.banner ++ LF);
            EvBind "" 9091%Z; EvTraceback "OSError"]
      /\ stdout_of (process run) = [serve.banner ++ LF]
      /\ responses run = []).
Proof.
  cbv zeta. split.
  - destruct (main_events env arrivals) as (_ & rest & He & _ & H2 & H3).
    exists [EvChdir (serve.script_directory env); EvStdout (serve.banner ++ LF)], rest.
    split; [exact He|]. repeat split; assumption.
  - intros Hb. rewrite (main_terminated env arrivals Hb). repeat split.
Qed.

Lemma banner_precedes_bind_witness :
  status (serve.main sample_env_port_in_use [connection "GET / HTTP/1.0" noon])
  = Terminated
  /\ stdout_of (process (serve.main sample_env_port_in_use
                            [connection "GET / HTTP/1.0" noon]))
     = ["Serving at http://localhost:9091 (no-cache)" ++ LF].
Proof.
  destruct (banner_precedes_bind sample_env_port_in_use [connection "GET / HTTP/1.0" noon])
    as (_ & H).
  destruct (H eq_refl) as (Hs & _ & Ho & _).
  split; [exact Hs | exact Ho].
Defined.

(** * Further properties of the server *)

Lemma utf8_cons c s :
  Str.utf8 (String c s)
  = (if (nat_of_ascii c <? 128)%nat then String c EmptyString
     else String (ascii_of_nat (192 + nat_of_ascii c / 64))
            (String (ascii_of_nat (128 + nat_of_ascii c mod 64)) EmptyString))
    ++ Str.utf8 s.
Proof. reflexivity. Qed.

(** The error page is never empty. *)
Lemma error_message_nonempty code message explain :
  (Str.utf8 (server.error_message_format code message explain) =? "") = false.
Proof.
  unfold server.error_message_format.
  match goal with
  | |- context [Str.utf8 ("<!DOCTYPE HTML>" ++ ?x)] =>
      change ("<!DOCTYPE HTML>" ++ x) with (String "<" ("!DOCTYPE HTML>" ++ x))
  end.
  rewrite utf8_cons. reflexivity.
Qed.

Ltac open_arrival H :=
  let r := fresh "r" in
  let rest := fresh "rest" in
  let base := fresh "base" in
  let number := fresh "number" in
  let Hreq := fresh "Hreq" in
  let Hlen := fresh "Hlen" in
  let Hwords := fresh "Hwords" in
  let Hversion := fresh "Hversion" in
  let Hbelow := fresh "Hbelow" in
  let H09 := fresh "H09" in
  let Hfields := fresh "Hfields" in
  let Hlong := fresh "Hlong" in
  let Hline := fresh "Hline" in
  destruct H as (r & rest & base & number & Hreq & Hlen & Hwords & Hversion
                 & Hbelow & H09 & Hfields);
  assert (Hlong : (65536 <? Z.of_nat (String.length (line r)))%Z = false)
    by (apply Z.ltb_ge; exact Hlen);
  assert (Hline : (line r =? "") = false)
    by (destruct (line r =? "") eqn:E; [|reflexivity];
        apply String.eqb_eq in E; rewrite E in Hwords; discriminate Hwords);
  change (is09 _ = false) in H09 || idtac;
  unfold answer;
  change NoCacheHandler_class with (with_fields no_cache_fields);
  unfold socketserver.finish_request, socketserver.new_handler;
  rewrite Hreq.

(** The hypotheses of a statement at a concrete input, by evaluation. *)
Ltac here :=
  first [ reflexivity
        | vm_compute; reflexivity
        | vm_compute; discriminate
        | left; reflexivity
        | right; reflexivity
        | unfold arrives; do 4 eexists; repeat split;
          first [ reflexivity | vm_compute; discriminate ] ].

(** From [sat] of the handler's run to the equation on [final]. *)
Lemma sat_wfile (o : Outcome unit) w :
  sat o (fun _ h => wfile h = w) never -> wfile (final o) = w.
Proof. destruct o; cbn; [auto | contradiction]. Qed.

(** Run the handler to its leaves, drop the leaves in which the error page
    would be empty, and compare what was written. *)
Ltac run_handler_upto stop :=
  pose proof no_cache_fields_plain;
  apply sat_wfile;
  apply sat_last; repeat wp_step stop;
  leaves;
  cbn [wfile];
  try match goal with
      | H : (Str.utf8 (server.error_message_format _ _ _) =? "") = true |- _ =>
          rewrite error_message_nonempty in H; discriminate H
      end.

Ltac run_handler := run_handler_upto enter_all.

Ltac compare_writes :=
  repeat match goal with
         | H : (?v =? "HTTP/0.9") = false |- context [is09 ?v] =>
             change (is09 v) with (v =? "HTTP/0.9"); rewrite H
         end;
  cbn [flush_wfile put_buf lines_of app];
  unfold error_response, file_response, response_head, error_page, no_cache_lines;
  cbn [app andb negb];
  repeat match goal with
         | H : (?c =? "") = _ |- context [?c =? ""] => rewrite H
         end;
  try reflexivity.

(** ** Methods other than GET and HEAD *)

(** A request with a method for which the handler has no [do_] method is
    answered 501 with the error page and the three no-cache lines, whatever
    its target and whatever the files. *)
Theorem unsupported_method_is_answered_501 P root a method target version fields :
  arrives a method target version fields ->
  (method =? "GET") = false -> (method =? "HEAD") = false ->
  answer P root a
  = error_response P (at_time a) NOT_IMPLEMENTED
      ("Unsupported method (" ++ Str.repr method ++ ")") true.
Proof.
  intros Ha Hget Hhead. open_arrival Ha.
  run_handler.
  all: compare_writes.
Qed.

Lemma unsupported_method_is_answered_501_witness :
  answer sample_platform "/srv/chess" (connection "POST /index.html HTTP/1.1" noon)
  = error_response sample_platform {| gmtime := noon; localtime := noon |}
      NOT_IMPLEMENTED "Unsupported method ('POST')" true.
Proof.
  apply (unsupported_method_is_answered_501 sample_platform "/srv/chess"
           (connection "POST /index.html HTTP/1.1" noon)
           "POST" "/index.html" "HTTP/1.1" []); here.
Defined.

Arguments time_le : simpl never.

Ltac split_request_path target :=
  unfold request_path in *;
  let E := fresh "Hslashes" in
  destruct (Str.startswith target "//") eqn:E;
  change (Str.startswith target "//") with (prefix "//" target) in E.

(** ** Files *)





(** ** Directories *)

(** A GET or HEAD request for a directory whose path has no slash at the
    end is answered 301 with the location that has the slash, the length 0,
    the three no-cache lines and no body. *)
Theorem directory_without_slash_is_redirected P root a method target version fields
        listing scheme netloc ppath query fragment :
  arrives a method target version fields ->
  method = "GET" \/ method = "HEAD" ->
  files a (server.translate_path P root (request_path target)) = Some (Dir listing) ->
  urlsplit P (request_path target) = Returns (scheme, netloc, ppath, query, fragment) ->
  Str.endswith ppath "/" = false ->
  answer P root a
  = [HeaderBlock
       (response_head P (at_time a) MOVED_PERMANENTLY "Moved Permanently"
        ++ [header_line ("Location",
                         urlunsplit P (scheme, netloc, ppath ++ "/", query, fragment));
            header_line ("Content-Length", "0")]
        ++ no_cache_lines ++ [CRLF])].
Proof.
  intros Ha Hmethod Hdir Hsplit Hslash. open_arrival Ha.
  split_request_path target.
  all: destruct Hmethod; subst method.
  all: run_handler.
  all: compare_writes.
Qed.

Lemma directory_without_slash_is_redirected_witness :
  answer sample_platform "/srv/chess" (connection "GET /etc HTTP/1.0" noon)
  = [HeaderBlock
       (response_head sample_platform {| gmtime := noon; localtime := noon |}
          MOVED_PERMANENTLY "Moved Permanently"
        ++ [header_line ("Location", "/etc/"); header_line ("Content-Length", "0")]
        ++ no_cache_lines ++ [CRLF])].
Proof.
  apply (directory_without_slash_is_redirected sample_platform "/srv/chess"
           (connection "GET /etc HTTP/1.0" noon)
           "GET" "/etc" "HTTP/1.0" []
           (Some [{| d_name := "passwd"; d_isdir := false; d_islink := false |}])
           "" "" "/etc" "" ""); here.
Defined.

(** ** Request lines the parser refuses *)

(** A request line of more than 65536 bytes is answered 414 with the error
    page and the three no-cache lines. *)
Theorem long_request_line_is_answered_414 P root a r rest :
  requests a = r :: rest ->
  (65536 < Z.of_nat (String.length (line r)))%Z ->
  answer P root a
  = error_response P (at_time a) REQUEST_URI_TOO_LONG "Request-URI Too Long" true.
Proof.
  intros Hreq Hlen.
  assert (Hlong : (65536 <? Z.of_nat (String.length (line r)))%Z = true)
    by (apply Z.ltb_lt; exact Hlen).
  unfold answer. change NoCacheHandler_class with (with_fields no_cache_fields).
  unfold socketserver.finish_request, socketserver.new_handler. rewrite Hreq.
  run_handler.
  all: compare_writes.
Qed.

Lemma long_request_line_is_answered_414_witness :
  answer sample_platform "/srv/chess" long_connection
  = error_response sample_platform {| gmtime := noon; localtime := noon |}
      REQUEST_URI_TOO_LONG "Request-URI Too Long" true.
Proof.
  apply (long_request_line_is_answered_414 sample_platform "/srv/chess" long_connection
           {| line := Str.zeros (Z.to_nat 65537); header_input := Headers [] |} []); here.
Defined.


(** A GET or HEAD request for a directory, with the slash, that holds
    neither [index.html] nor [index.htm] as a file and can be listed, and
    whose listing page can be encoded, is answered 200 with that page, as
    HTML in the encoding of the file system, and the three no-cache
    lines. *)
Theorem directory_is_listed P root a method target version fields entries
        scheme netloc ppath query fragment page :
  arrives a method target version fields ->
  method = "GET" \/ method = "HEAD" ->
  let path := server.translate_path P root (request_path target) in
  files a path = Some (Dir (Some entries)) ->
  urlsplit P (request_path target) = Returns (scheme, netloc, ppath, query, fragment) ->
  Str.endswith ppath "/" = true ->
  server.isfile (files a) (posixpath.join path "index.html") = false ->
  server.isfile (files a) (posixpath.join path "index.htm") = false ->
  listing_page P (request_path target) path (sort_entries P entries) = Returns page ->
  answer P root a
  = HeaderBlock
      (response_head P (at_time a) OK "OK"
       ++ [header_line ("Content-type", "text/html; charset=" ++ filesystemencoding P);
           header_line ("Content-Length", Str.of_Z (Z.of_nat (String.length page)))]
       ++ no_cache_lines ++ [CRLF])
    :: (if negb (method =? "HEAD") && negb (page =? "") then [Body page] else []).
Proof.
  intros Ha Hmethod path Hdir Hsplit Hslash Hindex Hindex' Hpage. subst path.
  open_arrival Ha.
  unfold server.isfile in Hindex, Hindex'.
  split_request_path target.
  all: destruct Hmethod; subst method.
  all: run_handler_upto not_send_head_file.
  all: try discriminate Hindex.
  all: try discriminate Hindex'.
  all: compare_writes.
Qed.

Lemma directory_is_listed_witness :
  answer sample_platform "/srv/chess"
    (connection_with sample_tree "GET /etc/ HTTP/1.0" [] noon)
  = HeaderBlock
      (response_head sample_platform {| gmtime := noon; localtime := noon |} OK "OK"
       ++ [header_line ("Content-type", "text/html; charset=utf-8");
           header_line ("Content-Length", "20")]
       ++ no_cache_lines ++ [CRLF])
    :: [Body "<html>listing</html>"].
Proof.
  apply (directory_is_listed sample_platform "/srv/chess"
           (connection_with sample_tree "GET /etc/ HTTP/1.0" [] noon)
           "GET" "/etc/" "HTTP/1.0" []
           [{| d_name := "passwd"; d_isdir := false; d_islink := false |}]
           "" "" "/etc/" "" "" "<html>listing</html>"); here.
Defined.





(** A GET or HEAD request for a directory without index file that cannot
    be listed is answered 404, [No permission to list directory]. *)
Theorem unlistable_directory_is_answered_404 P root a method target version fields
        scheme netloc ppath query fragment :
  arrives a method target version fields ->
  method = "GET" \/ method = "HEAD" ->
  let path := server.translate_path P root (request_path target) in
  files a path = Some (Dir None) ->
  urlsplit P (request_path target) = Returns (scheme, netloc, ppath, query, fragment) ->
  Str.endswith ppath "/" = true ->
  server.isfile (files a) (posixpath.join path "index.html") = false ->
  server.isfile (files a) (posixpath.join path "index.htm") = false ->
  answer P root a
  = error_response P (at_time a) NOT_FOUND "No permission to list directory"
      (negb (method =? "HEAD")).
Proof.
  intros Ha Hmethod path Hdir Hsplit Hslash Hindex Hindex'. subst path.
  open_arrival Ha.
  unfold server.isfile in Hindex, Hindex'.
  split_request_path target.
  all: destruct Hmethod; subst method.
  all: run_handler_upto not_send_head_file.
  all: try discriminate Hindex.
  all: try discriminate Hindex'.
  all: compare_writes.
Qed.

Lemma unlistable_directory_is_answered_404_witness :
  answer sample_platform "/srv/chess"
    (connection_with sample_tree "GET /private/ HTTP/1.0" [] noon)
  = error_response sample_platform {| gmtime := noon; localtime := noon |}
      NOT_FOUND "No permission to list directory" true.
Proof.
  apply (unlistable_directory_is_answered_404 sample_platform "/srv/chess"
           (connection_with sample_tree "GET /private/ HTTP/1.0" [] noon)
           "GET" "/private/" "HTTP/1.0" [] "" "" "/private/" "" ""); here.
Defined.

(** A request line of three words whose last is not [HTTP/] followed by
    two integers with a dot between them is refused while the request
    version is still HTTP/0.9: the response is the page of the error 400
    alone, without status line and without any header. *)
Theorem malformed_version_gets_the_error_page_alone P root a r rest method target version :
  requests a = r :: rest ->
  (Z.of_nat (String.length (line r)) <= 65536)%Z ->
  Str.split_ws (Str.rstrip Str.is_crlf (line r)) = [method; target; version] ->
  server.parse_version version = None ->
  answer P root a
  = [Body (error_page BAD_REQUEST ("Bad request version (" ++ Str.repr version ++ ")"))].
Proof.
  intros Hreq Hlen Hwords Hversion.
  assert (Hlong : (65536 <? Z.of_nat (String.length (line r)))%Z = false)
    by (apply Z.ltb_ge; exact Hlen).
  assert (Hline : (line r =? "") = false).
  { destruct (line r =? "") eqn:E; [|reflexivity].
    apply String.eqb_eq in E. rewrite E in Hwords. discriminate Hwords. }
  unfold answer. change NoCacheHandler_class with (with_fields no_cache_fields).
  unfold socketserver.finish_request, socketserver.new_handler. rewrite Hreq.
  run_handler.
  all: compare_writes.
Qed.

Lemma malformed_version_gets_the_error_page_alone_witness :
  answer sample_platform "/srv/chess" (connection "GET /index.html FTP/1.0" noon)
  = [Body (error_page BAD_REQUEST "Bad request version ('FTP/1.0')")].
Proof.
  apply (malformed_version_gets_the_error_page_alone sample_platform "/srv/chess"
           (connection "GET /index.html FTP/1.0" noon)
           {| line := "GET /index.html FTP/1.0" ++ CRLF; header_input := Headers [] |} []
           "GET" "/index.html" "FTP/1.0"); here.
Defined.

(** A request line of three words with a version from 2.0 on is refused
    likewise: the response is the page of the error 505 alone. *)
Theorem unsupported_version_gets_the_error_page_alone P root a r rest method target
        version base number :
  requests a = r :: rest ->
  (Z.of_nat (String.length (line r)) <= 65536)%Z ->
  Str.split_ws (Str.rstrip Str.is_crlf (line r)) = [method; target; version] ->
  server.parse_version version = Some (base, number) ->
  server.tuple_ge number (2, 0)%Z = true ->
  answer P root a
  = [Body (error_page HTTP_VERSION_NOT_SUPPORTED ("Invalid HTTP version (" ++ base ++ ")"))].
Proof.
  intros Hreq Hlen Hwords Hversion Habove.
  assert (Hlong : (65536 <? Z.of_nat (String.length (line r)))%Z = false)
    by (apply Z.ltb_ge; exact Hlen).
  assert (Hline : (line r =? "") = false).
  { destruct (line r =? "") eqn:E; [|reflexivity].
    apply String.eqb_eq in E. rewrite E in Hwords. discriminate Hwords. }
  unfold answer. change NoCacheHandler_class with (with_fields no_cache_fields).
  unfold socketserver.finish_request, socketserver.new_handler. rewrite Hreq.
  run_handler.
  all: compare_writes.
Qed.

Lemma unsupported_version_gets_the_error_page_alone_witness :
  answer sample_platform "/srv/chess" (connection "GET /index.html HTTP/2.0" noon)
  = [Body (error_page HTTP_VERSION_NOT_SUPPORTED "Invalid HTTP version (2.0)")].
Proof.
  apply (unsupported_version_gets_the_error_page_alone sample_platform "/srv/chess"
           (connection "GET /index.html HTTP/2.0" noon)
           {| line := "GET /index.html HTTP/2.0" ++ CRLF; header_input := Headers [] |} []
           "GET" "/index.html" "HTTP/2.0" "2.0" (2, 0)%Z); here.
Defined.

Lemma sat_state (o : Outcome unit) (Q : Handler -> Prop) :
  sat o (fun _ h => Q h) never -> exists h, o = Return tt h /\ Q h.
Proof. destruct o as [[] h|]; cbn; [eauto | contradiction]. Qed.

(** A connection that brings no request line (it ends at once, or its
    first line has no word) gets no response, and nothing is logged. *)
Theorem blank_request_line_gets_no_response P p a :
  no_request_line a ->
  exists h,
    socketserver.finish_request P NoCacheHandler_class p a = Return tt h
    /\ wfile h = [] /\ proc h = p.
Proof.
  unfold no_request_line. intros Ha.
  apply (sat_state _ (fun h => wfile h = [] /\ proc h = p)).
  change NoCacheHandler_class with (with_fields no_cache_fields).
  unfold socketserver.finish_request, socketserver.new_handler.
  destruct (requests a) as [|r rest].
  - apply sat_last; repeat wp_step enter_all.
    leaves. split; reflexivity.
  - destruct Ha as [Hlen Hwords].
    assert (Hlong : (65536 <? Z.of_nat (String.length (line r)))%Z = false)
      by (apply Z.ltb_ge; exact Hlen).
    apply sat_last; repeat wp_step enter_all.
    all: leaves.
    all: split; reflexivity.
Qed.

Lemma blank_request_line_gets_no_response_witness :
  exists h,
    socketserver.finish_request sample_platform NoCacheHandler_class
      {| cwd := "/srv/chess"; events := [] |} (connection "" noon) = Return tt h
    /\ wfile h = [] /\ proc h = {| cwd := "/srv/chess"; events := [] |}.
Proof.
  apply (blank_request_line_gets_no_response sample_platform
           {| cwd := "/srv/chess"; events := [] |} (connection "" noon)).
  split; here.
Defined.

(** ** HEAD *)

(** The response to a HEAD request has no body, whatever the target names:
    when the handler returns it has written one header block and nothing
    else; when it raises (a library call has refused the path or the target)
    it has written nothing. *)
Theorem head_response_has_no_body P p a target version fields :
  arrives a "HEAD" target version fields ->
  match socketserver.finish_request P NoCacheHandler_class p a with
  | Return _ h => exists lines, wfile h = [HeaderBlock lines]
  | Raise _ h => wfile h = []
  end.
Proof.
  intros Ha.
  change (sat (socketserver.finish_request P NoCacheHandler_class p a)
              (fun _ h => exists lines, wfile h = [HeaderBlock lines])
              (fun _ h => wfile h = [])).
  destruct Ha as (r & rest & base & number & Hreq & Hlen & Hwords & Hversion
                  & Hbelow & H09 & Hfields).
  assert (Hlong : (65536 <? Z.of_nat (String.length (line r)))%Z = false)
    by (apply Z.ltb_ge; exact Hlen).
  assert (Hline : (line r =? "") = false).
  { destruct (line r =? "") eqn:E; [|reflexivity].
    apply String.eqb_eq in E. rewrite E in Hwords. discriminate Hwords. }
  change NoCacheHandler_class with (with_fields no_cache_fields).
  unfold socketserver.finish_request, socketserver.new_handler. rewrite Hreq.
  pose proof no_cache_fields_plain.
  apply sat_last; repeat wp_step enter_all.
  all: leaves.
  all: cbn [wfile].
  all: try reflexivity.
  all: change (is09 version) with (version =? "HTTP/0.9"); rewrite H09.
  all: cbn [flush_wfile put_buf lines_of app].
  all: eexists; reflexivity.
Qed.

Lemma head_response_has_no_body_witness :
  exists lines,
    answer sample_platform "/srv/chess" (connection "HEAD /missing HTTP/1.0" noon)
    = [HeaderBlock lines].
Proof.
  pose proof (head_response_has_no_body sample_platform
                {| cwd := "/srv/chess"; events := [] |}
                (connection "HEAD /missing HTTP/1.0" noon) "/missing" "HTTP/1.0" []) as H.
  unfold answer.
  destruct (socketserver.finish_request sample_platform NoCacheHandler_class
              {| cwd := "/srv/chess"; events := [] |}
              (connection "HEAD /missing HTTP/1.0" noon)) as [[] h|x h] eqn:E.
  - apply H. here.
  - vm_compute in E. discriminate E.
Defined.

(** ** One request per connection *)

Lemma sat_cut {A B} (m : M A) (k : A -> M B) h
      (R : A -> Handler -> Prop) (X : Exception -> Handler -> Prop)
      (Q : B -> Handler -> Prop) (E : Exception -> Handler -> Prop) :
  sat (m h) R X -> (forall a g, R a g -> sat (k a g) Q E) ->
  (forall x g, X x g -> E x g) ->
  sat (bind m k h) Q E.
Proof.
  unfold sat, bind. intros H1 H2 H3.
  destruct (m h) as [a g|x g]; [exact (H2 a g H1) | exact (H3 x g H1)].
Qed.

(** [send_head] on its own: when it returns it leaves all of the handler
    but the process, the writes and the header buffer as they were; when it
    raises it leaves all of it. *)
Lemma send_head_alone P fs root e q ca clk rf ur raw rl v c pth hs :
  Forall plain e ->
  sat (server.send_head P fs (with_fields e)
         (in_flight root q ca clk rf ur raw rl v c pth hs))
      (fun _ g => exists q' w b, g = responded root q' ca clk rf ur raw rl v c pth hs w b)
      (fun _ g => g = in_flight root q ca clk rf ur raw rl v c pth hs).
Proof.
  intros He.
  pose proof (send_head_related P fs root e e clk clk q q ca ca rf ur raw rl v c pth hs
                He He) as H.
  unfold sat2, sat in *.
  destruct (server.send_head _ _ _ _) as [f g|x g].
  - destruct H as (_ & q1 & _ & w1 & _ & b1 & _ & _ & -> & _). eauto.
  - destruct H as (_ & _ & -> & _). reflexivity.
Qed.

(** On every connection the handler reads the first request and no other:
    when it ends, by a return or by a raise, the connection is to be closed
    and what follows the first request on the connection is left unread. *)
Theorem one_request_is_read_per_connection P p a :
  let h := final (socketserver.finish_request P NoCacheHandler_class p a) in
  close_connection h = true /\ rfile h = tl (requests a).
Proof.
  cbv zeta.
  apply (sat_either _ (fun h => close_connection h = true /\ rfile h = tl (requests a))).
  change NoCacheHandler_class with (with_fields no_cache_fields).
  unfold socketserver.finish_request, socketserver.new_handler.
  pose proof no_cache_fields_plain as Hplain.
  destruct (requests a) as [|r rest]; cbn [tl].
  all: apply sat_last; repeat wp_step not_send_head.
  all: try (eapply sat_cut;
            [ eapply send_head_alone; exact Hplain
            | intros f g (q' & w & b & ->); unfold responded;
              repeat wp_step not_send_head
            | intros x g ->; unfold in_flight ]).
  all: leaves.
  all: cbn [close_connection rfile].
  all: split; reflexivity.
Qed.

(** ** The connections are served in turn *)





(** ** Requests that are not answered *)

(** From [sat] of a run that raises to the equation. *)
Lemma sat_raise (o : Outcome unit) x (S : Handler -> Prop) :
  sat o (fun _ _ => False) (fun x' h => x' = x /\ S h) -> exists h, o = Raise x h /\ S h.
Proof. destruct o as [[] h|x' h]; cbn; [contradiction | intros [-> H]; eauto]. Qed.

(** Run the handler to the leaves, at which it has raised. *)
Ltac run_to_raise stop :=
  apply sat_raise;
  apply sat_last; repeat wp_step stop;
  leaves.

(** A GET or HEAD request for a string that cannot be a path (it holds a
    null character, or a character that the file system's encoding does not
    have) is not answered: [open] raises, the exception leaves the handler,
    and nothing has been written to the connection nor logged. *)
Theorem invalid_path_is_not_answered P p a method target version fields x :
  arrives a method target version fields ->
  method = "GET" \/ method = "HEAD" ->
  files a (server.translate_path P (cwd p) (request_path target)) = Some (Invalid x) ->
  Str.endswith (server.translate_path P (cwd p) (request_path target)) "/" = false ->
  exists h,
    socketserver.finish_request P NoCacheHandler_class p a = Raise x h
    /\ wfile h = [] /\ proc h = p.
Proof.
  intros Ha Hmethod Hfile Hslash. open_arrival Ha.
  split_request_path target.
  all: destruct Hmethod; subst method.
  all: run_to_raise enter_all.
  all: repeat split.
Qed.

Lemma invalid_path_is_not_answered_witness :
  exists h,
    socketserver.finish_request sample_platform NoCacheHandler_class
      {| cwd := "/srv/chess"; events := [] |} (connection null_request_line noon)
    = Raise (ValueError "embedded null byte") h
    /\ wfile h = [] /\ proc h = {| cwd := "/srv/chess"; events := [] |}.
Proof.
  apply (invalid_path_is_not_answered sample_platform
           {| cwd := "/srv/chess"; events := [] |} (connection null_request_line noon)
           "GET" ("/a" ++ String "000" "b") "HTTP/1.1" []); here.
Defined.

(** A GET or HEAD request for a directory with a target on which
    [urlsplit] raises is not answered either. *)
Theorem unsplittable_target_is_not_answered P p a method target version fields listing x :
  arrives a method target version fields ->
  method = "GET" \/ method = "HEAD" ->
  files a (server.translate_path P (cwd p) (request_path target)) = Some (Dir listing) ->
  urlsplit P (request_path target) = Raises x ->
  exists h,
    socketserver.finish_request P NoCacheHandler_class p a = Raise x h
    /\ wfile h = [] /\ proc h = p.
Proof.
  intros Ha Hmethod Hdir Hsplit. open_arrival Ha.
  split_request_path target.
  all: destruct Hmethod; subst method.
  all: run_to_raise enter_all.
  all: repeat split.
Qed.

Lemma unsplittable_target_is_not_answered_witness :
  exists h,
    socketserver.finish_request sample_platform_strict NoCacheHandler_class
      {| cwd := "/srv/chess"; events := [] |} (connection "GET a://[/../.. HTTP/1.0" noon)
    = Raise (ValueError "Invalid IPv6 URL") h
    /\ wfile h = [] /\ proc h = {| cwd := "/srv/chess"; events := [] |}.
Proof.
  apply (unsplittable_target_is_not_answered sample_platform_strict
           {| cwd := "/srv/chess"; events := [] |}
           (connection "GET a://[/../.. HTTP/1.0" noon)
           "GET" "a://[/../.." "HTTP/1.0" []
           (Some [{| d_name := "etc"; d_isdir := true; d_islink := false |};
                  {| d_name := "index.html"; d_isdir := false; d_islink := false |};
                  {| d_name := "serve.py"; d_isdir := false; d_islink := false |}])); here.
Defined.

(** A GET or HEAD request for a directory without index file whose listing
    page cannot be encoded is not answered: the exception leaves
    [list_directory] before the status line is sent. *)
Theorem unencodable_listing_is_not_answered P p a method target version fields entries
        scheme netloc ppath query fragment x :
  arrives a method target version fields ->
  method = "GET" \/ method = "HEAD" ->
  let path := server.translate_path P (cwd p) (request_path target) in
  files a path = Some (Dir (Some entries)) ->
  urlsplit P (request_path target) = Returns (scheme, netloc, ppath, query, fragment) ->
  Str.endswith ppath "/" = true ->
  server.isfile (files a) (posixpath.join path "index.html") = false ->
  server.isfile (files a) (posixpath.join path "index.htm") = false ->
  listing_page P (request_path target) path (sort_entries P entries) = Raises x ->
  exists h,
    socketserver.finish_request P NoCacheHandler_class p a = Raise x h
    /\ wfile h = [] /\ proc h = p.
Proof.
  intros Ha Hmethod path Hdir Hsplit Hslash Hindex Hindex' Hpage. subst path.
  open_arrival Ha.
  unfold server.isfile in Hindex, Hindex'.
  split_request_path target.
  all: destruct Hmethod; subst method.
  all: apply sat_raise.
  all: apply sat_last; repeat wp_step not_send_head_file.
  all: try discriminate Hindex.
  all: try discriminate Hindex'.
  all: leaves.
  all: repeat split.
Qed.

Lemma unencodable_listing_is_not_answered_witness :
  exists h,
    socketserver.finish_request sample_platform_strict NoCacheHandler_class
      {| cwd := "/srv/chess"; events := [] |}
      (connection_with sample_tree "GET /etc/?%ED%A0%80 HTTP/1.0" [] noon)
    = Raise (UnicodeEncodeError "surrogates not allowed") h
    /\ wfile h = [] /\ proc h = {| cwd := "/srv/chess"; events := [] |}.
Proof.
  apply (unencodable_listing_is_not_answered sample_platform_strict
           {| cwd := "/srv/chess"; events := [] |}
           (connection_with sample_tree "GET /etc/?%ED%A0%80 HTTP/1.0" [] noon)
           "GET" "/etc/?%ED%A0%80" "HTTP/1.0" []
           [{| d_name := "passwd"; d_isdir := false; d_islink := false |}]
           "" "" "/etc/" "%ED%A0%80" ""); here.
Defined.

(** ** The query string and the fragment *)

Lemma before_app sep p rest :
  Str.contains sep p = false -> Str.before sep (p ++ String sep rest) = p.
Proof.
  induction p as [|c p IH]; intros H.
  - change ("" ++ String sep rest) with (String sep rest). cbn [Str.before].
    rewrite Ascii.eqb_refl. reflexivity.
  - change (String c p ++ String sep rest) with (String c (p ++ String sep rest)).
    cbn [Str.before Str.contains] in H |- *.
    apply Bool.orb_false_iff in H. destruct H as [Hc Hp].
    rewrite Ascii.eqb_sym, Hc, (IH Hp). reflexivity.
Qed.

Lemma before_none sep p : Str.contains sep p = false -> Str.before sep p = p.
Proof.
  induction p as [|c p IH]; intros H; [reflexivity|].
  cbn [Str.before Str.contains] in H |- *.
  apply Bool.orb_false_iff in H. destruct H as [Hc Hp].
  rewrite Ascii.eqb_sym, Hc, (IH Hp). reflexivity.
Qed.

Lemma before_app_other sep p s :
  Str.contains sep p = false -> Str.before sep (p ++ s) = p ++ Str.before sep s.
Proof.
  induction p as [|c p IH]; intros H; [reflexivity|].
  change (String c p ++ s) with (String c (p ++ s)).
  change (String c p ++ Str.before sep s) with (String c (p ++ Str.before sep s)).
  cbn [Str.before Str.contains] in H |- *.
  apply Bool.orb_false_iff in H. destruct H as [Hc Hp].
  rewrite Ascii.eqb_sym, Hc, (IH Hp). reflexivity.
Qed.

(** The path a target translates to does not depend on its query string
    nor on its fragment. *)
Theorem query_and_fragment_do_not_change_the_path P directory target :
  Str.contains "?" target = false ->
  Str.contains "#" target = false ->
  forall rest,
    server.translate_path P directory (target ++ "?" ++ rest)
    = server.translate_path P directory target
    /\ server.translate_path P directory (target ++ "#" ++ rest)
       = server.translate_path P directory target.
Proof.
  intros Hq Hf rest. unfold server.translate_path.
  change ("?" ++ rest) with (String "?" rest).
  change ("#" ++ rest) with (String "#" rest).
  rewrite (before_app "?" target rest Hq), (before_none "?" target Hq),
    (before_none "#" target Hf).
  split; [reflexivity|].
  rewrite (before_app_other "?" target (String "#" rest) Hq).
  change (Str.before "?" (String "#" rest)) with (String "#" (Str.before "?" rest)).
  rewrite (before_app "#" target _ Hf).
  reflexivity.
Qed.

Lemma query_and_fragment_do_not_change_the_path_witness :
  server.translate_path sample_platform "/srv/chess" ("/index.html" ++ "?" ++ "v=3#top")
  = server.translate_path sample_platform "/srv/chess" "/index.html"
  /\ server.translate_path sample_platform "/srv/chess" ("/index.html" ++ "#" ++ "v=3#top")
     = server.translate_path sample_platform "/srv/chess" "/index.html".
Proof.
  apply (query_and_fragment_do_not_change_the_path sample_platform "/srv/chess"
           "/index.html"); here.
Defined.

(** ** The error page holds no markup of the client *)

Lemma contains_app c a b :
  Str.contains c (a ++ b) = Str.contains c a || Str.contains c b.
Proof.
  induction a as [|d a IH]; [reflexivity|].
  change (String d a ++ b) with (String d (a ++ b)).
  cbn [Str.contains]. rewrite IH, Bool.orb_assoc. reflexivity.
Qed.

Lemma html_escape_cons c s :
  Str.html_escape (String c s)
  = (if Ascii.eqb c "&" then "&amp;"
     else if Ascii.eqb c "<" then "&lt;"
     else if Ascii.eqb c ">" then "&gt;"
     else String c EmptyString) ++ Str.html_escape s.
Proof. reflexivity. Qed.

(** What [html.escape] returns has no angle bracket: the message and the
    explanation of an error page, which [send_error] escapes, cannot open or
    close a tag. *)
Theorem html_escape_leaves_no_angle_bracket s :
  Str.contains "<" (Str.html_escape s) = false
  /\ Str.contains ">" (Str.html_escape s) = false.
Proof.
  induction s as [|c s [IH1 IH2]]; [split; reflexivity|].
  rewrite html_escape_cons, !contains_app, IH1, IH2, !Bool.orb_false_r.
  destruct (Ascii.eqb c "&") eqn:E1; [split; reflexivity|].
  destruct (Ascii.eqb c "<") eqn:E2; [split; reflexivity|].
  destruct (Ascii.eqb c ">") eqn:E3; [split; reflexivity|].
  cbn [Str.contains]. rewrite (Ascii.eqb_sym "<" c), (Ascii.eqb_sym ">" c), E2, E3.
  split; reflexivity.
Qed.

(** ** HTTP/0.9 *)



(** ** Request lines of one and of two words *)

(** A request line of one word is refused as HTTP/0.9: the response is the
    page of the error 400 alone. *)
Theorem one_word_request_line_gets_the_error_page_alone P root a r rest word :
  requests a = r :: rest ->
  (Z.of_nat (String.length (line r)) <= 65536)%Z ->
  Str.split_ws (Str.rstrip Str.is_crlf (line r)) = [word] ->
  answer P root a
  = [Body (error_page BAD_REQUEST
             ("Bad request syntax (" ++ Str.repr (Str.rstrip Str.is_crlf (line r)) ++ ")"))].
Proof.
  intros Hreq Hlen Hwords.
  assert (Hlong : (65536 <? Z.of_nat (String.length (line r)))%Z = false)
    by (apply Z.ltb_ge; exact Hlen).
  assert (Hline : (line r =? "") = false).
  { destruct (line r =? "") eqn:E; [|reflexivity].
    apply String.eqb_eq in E. rewrite E in Hwords. discriminate Hwords. }
  unfold answer. change NoCacheHandler_class with (with_fields no_cache_fields).
  unfold socketserver.finish_request, socketserver.new_handler. rewrite Hreq.
  run_handler.
  all: compare_writes.
Qed.

Lemma one_word_request_line_gets_the_error_page_alone_witness :
  answer sample_platform "/srv/chess" (connection "GET" noon)
  = [Body (error_page BAD_REQUEST "Bad request syntax ('GET')")].
Proof.
  apply (one_word_request_line_gets_the_error_page_alone sample_platform "/srv/chess"
           (connection "GET" noon)
           {| line := "GET" ++ CRLF; header_input := Headers [] |} [] "GET"); here.
Defined.

(** A request line of two words whose first is not [GET] is refused
    likewise. *)
Theorem simple_request_must_be_a_get P root a r rest method target :
  requests a = r :: rest ->
  (Z.of_nat (String.length (line r)) <= 65536)%Z ->
  Str.split_ws (Str.rstrip Str.is_crlf (line r)) = [method; target] ->
  (method =? "GET") = false ->
  answer P root a
  = [Body (error_page BAD_REQUEST
             ("Bad HTTP/0.9 request type (" ++ Str.repr method ++ ")"))].
Proof.
  intros Hreq Hlen Hwords Hget.
  assert (Hlong : (65536 <? Z.of_nat (String.length (line r)))%Z = false)
    by (apply Z.ltb_ge; exact Hlen).
  assert (Hline : (line r =? "") = false).
  { destruct (line r =? "") eqn:E; [|reflexivity].
    apply String.eqb_eq in E. rewrite E in Hwords. discriminate Hwords. }
  unfold answer. change NoCacheHandler_class with (with_fields no_cache_fields).
  unfold socketserver.finish_request, socketserver.new_handler. rewrite Hreq.
  run_handler.
  all: compare_writes.
Qed.

Lemma simple_request_must_be_a_get_witness :
  answer sample_platform "/srv/chess" (connection "HEAD /index.html" noon)
  = [Body (error_page BAD_REQUEST "Bad HTTP/0.9 request type ('HEAD')")].
Proof.
  apply (simple_request_must_be_a_get sample_platform "/srv/chess"
           (connection "HEAD /index.html" noon)
           {| line := "HEAD /index.html" ++ CRLF; header_input := Headers [] |} []
           "HEAD" "/index.html"); here.
Defined.

(** ** Header fields that do not parse *)

(** When a header line is too long, the request (with a request line the
    parser accepts) is answered 431 with the three no-cache lines; the error
    page explains with the text of the exception. *)
Theorem long_header_line_is_answered_431 P root a r rest method target version
        base number err :
  requests a = r :: rest ->
  (Z.of_nat (String.length (line r)) <= 65536)%Z ->
  Str.split_ws (Str.rstrip Str.is_crlf (line r)) = [method; target; version] ->
  server.parse_version version = Some (base, number) ->
  server.tuple_ge number (2, 0)%Z = false ->
  (version =? "HTTP/0.9") = false ->
  header_input r = LineTooLong err ->
  let page :=
    error_page_explained REQUEST_HEADER_FIELDS_TOO_LARGE "Line too long" err in
  answer P root a
  = HeaderBlock
      (response_head P (at_time a) REQUEST_HEADER_FIELDS_TOO_LARGE "Line too long"
       ++ [header_line ("Connection", "close");
           header_line ("Content-Type", server.error_content_type);
           header_line ("Content-Length", Str.of_Z (Z.of_nat (String.length page)))]
       ++ no_cache_lines ++ [CRLF])
    :: (if method =? "HEAD" then [] else [Body page]).
Proof.
  intros Hreq Hlen Hwords Hversion Hbelow H09 Hfields page. subst page.
  assert (Hlong : (65536 <? Z.of_nat (String.length (line r)))%Z = false)
    by (apply Z.ltb_ge; exact Hlen).
  assert (Hline : (line r =? "") = false).
  { destruct (line r =? "") eqn:E; [|reflexivity].
    apply String.eqb_eq in E. rewrite E in Hwords. discriminate Hwords. }
  unfold answer. change NoCacheHandler_class with (with_fields no_cache_fields).
  unfold socketserver.finish_request, socketserver.new_handler. rewrite Hreq.
  run_handler.
  all: compare_writes.
  all: unfold error_page_explained.
  all: repeat match goal with
              | H : (?m =? "HEAD") = _ |- context [?m =? "HEAD"] => rewrite H
              end.
  all: reflexivity.
Qed.

Lemma long_header_line_is_answered_431_witness :
  answer sample_platform "/srv/chess" connection_long_header
  = HeaderBlock
      (response_head sample_platform {| gmtime := noon; localtime := noon |}
         REQUEST_HEADER_FIELDS_TOO_LARGE "Line too long"
       ++ [header_line ("Connection", "close");
           header_line ("Content-Type", server.error_content_type);
           header_line
             ("Content-Length",
              Str.of_Z (Z.of_nat (String.length
                (error_page_explained REQUEST_HEADER_FIELDS_TOO_LARGE "Line too long"
                   "got more than 65536 bytes when reading header line"))))]
       ++ no_cache_lines ++ [CRLF])
    :: [Body (error_page_explained REQUEST_HEADER_FIELDS_TOO_LARGE "Line too long"
                "got more than 65536 bytes when reading header line")].
Proof.
  apply (long_header_line_is_answered_431 sample_platform "/srv/chess"
           connection_long_header
           {| line := "GET /index.html HTTP/1.1" ++ CRLF;
              header_input :=
                LineTooLong "got more than 65536 bytes when reading header line" |}
           [] "GET" "/index.html" "HTTP/1.1" "1.1" (1, 1)%Z
           "got more than 65536 bytes when reading header line"); here.
Defined.

(** ** The log *)

Lemma has_control_app a b : has_control (a ++ b) = has_control a || has_control b.
Proof.
  induction a as [|c a IH]; [reflexivity|].
  change (String c a ++ b) with (String c (a ++ b)).
  cbn [has_control]. rewrite IH, Bool.orb_assoc. reflexivity.
Qed.

Lemma control_char_table_cons c s :
  server.control_char_table (String c s)
  = server.control_char_table (String c EmptyString) ++ server.control_char_table s.
Proof.
  unfold server.control_char_table, Str.map_chars.
  match goal with
  | |- (?a ++ ?b) = (?a ++ EmptyString) ++ ?b' =>
      replace (a ++ EmptyString) with a; [reflexivity|]
  end.
  match goal with |- ?a = _ => generalize a end.
  intros t. induction t as [|d t IH]; [reflexivity|].
  change (String d t ++ "") with (String d (t ++ "")). rewrite <- IH. reflexivity.
Qed.

Lemma control_char_escaped c :
  has_control (server.control_char_table (String c EmptyString)) = false.
Proof.
  destruct c as [[] [] [] [] [] [] [] []]; vm_compute; reflexivity.
Qed.

(** The message of a log line, as [log_message] writes it after
    [translate(self._control_char_table)], holds no control character,
    whatever the request put into it: a request cannot start a line of its
    own in the log. *)
Theorem log_message_holds_no_control_character message :
  has_control (server.control_char_table message) = false.
Proof.
  induction message as [|c s IH]; [reflexivity|].
  rewrite control_char_table_cons, has_control_app, control_char_escaped, IH.
  reflexivity.
Qed.
